(** * Investment Research Agent: a shallow embedding of the three scripts

    The repository is three Python files:
    - [app.py], the Streamlit chat application;
    - [check_google_genai.py], a console check of the Gemini API key;
    - [check_toolbox_query_agent.py], a console run of the agent over the
      canned questions.

    Every script is modelled as a computation in a state-and-exception monad
    over the process state (the environment block, Streamlit's session
    store, a chronological log of the calls made to third-party libraries).
    What the third-party libraries answer (the [.env] file, the toolbox
    server, the agent, the Gemini endpoint, the key the client constructors
    find for themselves, the widgets' values) is an input of the model. *)

From stdpp Require Import gmap strings list pretty.

(** ** The Python layer: exceptions, outcomes, the monad *)

Module Py.

(** The exceptions the three files can see.  [LibraryError] stands for
    whatever a third-party call raises; the other constructors are raised
    by the interpreter or by a [raise] statement of the repository. *)
Inductive Exn : Type :=
| KeyError (key : string)
| AttributeError (name : string)
| IndexError (msg : string)
| ValueError (msg : string)
| TypeError (msg : string)
| LibraryError (msg : string).

(** [str(e)]: a [KeyError] prints the [repr] of its key. *)
Definition str (e : Exn) : string :=
  match e with
  | KeyError k => "'" +:+ k +:+ "'"
  | AttributeError n => n
  | IndexError m | ValueError m | TypeError m | LibraryError m => m
  end.

(** How a piece of code ends: it returns, it calls [st.stop()], or it
    raises. *)
Inductive Outcome (A : Type) : Type :=
| Returned (a : A)
| Stopped
| Raised (e : Exn).
Arguments Returned {A} a.
Arguments Stopped {A}.
Arguments Raised {A} e.

(** Truth value of a string, and of a string-or-[None]. *)
Definition truthy (s : string) : bool := bool_decide (s ≠ "").

Definition truthy_opt (o : option string) : bool :=
  match o with
  | Some s => truthy s
  | None => false
  end.

(** [a or b] on string-or-[None] operands. *)
Definition py_or (a b : option string) : option string :=
  if truthy_opt a then a else b.

Section Monad.
Context {St : Type}.

Definition M (A : Type) : Type := St → Outcome A * St.

Definition ret {A} (a : A) : M A := λ s, (Returned a, s).

Definition bind {A B} (m : M A) (k : A → M B) : M B :=
    λ s, match m s with
         | (Returned a, s') => k a s'
         | (Stopped, s') => (Stopped, s')
         | (Raised e, s') => (Raised e, s')
         end.

Definition raise {A} (e : Exn) : M A := λ s, (Raised e, s).
Definition stop {A} : M A := λ s, (Stopped, s).
Definition get : M St := λ s, (Returned s, s).
Definition modify (f : St → St) : M unit := λ s, (Returned tt, f s).

(** [try: body except Exception as e: handler(e)] *)
Definition try_except {A} (body : M A) (handler : Exn → M A) : M A :=
    λ s, match body s with
         | (Raised e, s') => handler e s'
         | r => r
         end.

(** [for x in xs: body(x)] *)
Fixpoint for_each {A} (xs : list A) (body : A → M unit) : M unit :=
    match xs with
    | [] => ret tt
    | x :: xs' => bind (body x) (λ _, for_each xs' body)
    end.
End Monad.

Arguments M : clear implicits.

(** The monad is registered with stdpp's classes, which gives the
    notations [x ← m; k] and [m;; k]. *)
#[global] Instance M_ret {St} : MRet (M St) := @ret St.
#[global] Instance M_bind {St} : MBind (M St) := λ A B k m, bind m k.

End Py.

Export Py.

(** ** The third-party objects the scripts build and pass around *)

(** [langchain_core.messages]; [RoleMessage] is the tuple form
    [(role, content)] that [check_toolbox_query_agent.py] sends. *)
Inductive Message : Type :=
| SystemMessage (content : string)
| AIMessage (content : string)
| HumanMessage (content : string)
| RoleMessage (role content : string).

Definition content (m : Message) : string :=
  match m with
  | SystemMessage c | AIMessage c | HumanMessage c | RoleMessage _ c => c
  end.

Definition is_AIMessage (m : Message) : bool :=
  match m with AIMessage _ => true | _ => false end.

Definition is_HumanMessage (m : Message) : bool :=
  match m with HumanMessage _ => true | _ => false end.

(** [ChatOpenAI(model=..., api_key=..., base_url=...)] *)
Record ChatOpenAI : Type := mkChatOpenAI {
  model : string;
  api_key : string;
  base_url : string
}.

(** A toolset is known by the names of its tools; a [MemorySaver] by the
    identity of the object. *)
Definition Toolset : Type := list string.
Definition MemorySaver : Type := nat.

(** [create_react_agent(llm, tools, checkpointer=memory)] *)
Record ReactAgent : Type := mkReactAgent {
  llm : ChatOpenAI;
  agent_tools : Toolset;
  checkpointer : MemorySaver
}.

Inductive Callback : Type := StreamlitCallbackHandler.

(** The [config] dictionary of an invocation: the ["configurable"]
    sub-dictionary and the ["callbacks"] entry when there is one. *)
Record Config : Type := mkConfig {
  configurable : gmap string string;
  callbacks : option (list Callback)
}.

(** One [agent.invoke] or [agent.ainvoke] call. *)
Record Invocation : Type := mkInvocation {
  inv_agent : ReactAgent;
  inv_messages : list Message;
  inv_stream_mode : string;
  inv_config : Config
}.

(** What Streamlit is asked to draw. *)
Inductive Widget : Type :=
| PageConfig (page_title : string)
| Title (body : string)
| Markdown (body : string)
| SidebarHeader (body : string)
| SidebarTextInput (label : string)
| Info (body : string)
| Button (label : string)
| ChatMessage (role body : string)
| ChatContainer (role : string)
| Placeholder
| Selectbox (label : string) (options : list string)
| ChatInput (placeholder : string).

(** The calls that leave the repository, in the order they are made. *)
Inductive Event : Type :=
| LoadDotenv
| LoadToolset (url : string)
| NewMemorySaver (id : MemorySaver)
| NewChatOpenAI (c : ChatOpenAI)
| CreateReactAgent (a : ReactAgent)
| Invoke (inv : Invocation)
| NewGenaiClient
| GenerateContent (model contents : string)
| Print (line : string)
| Render (w : Widget).

(** [st.session_state], restricted to the three keys the application
    uses; [None] is an absent key. *)
Record SessionState : Type := mkSession {
  messages : option (list Message);
  thread_id : option string;
  threads : option (list string)
}.

(** The state of the process. *)
Record World : Type := mkWorld {
  environ : gmap string string;
  session_state : SessionState;
  trace : list Event;
  next_object : nat
}.

(** What the outside answers during one run of a script.  A library call
    either raises (left) or returns (right); the agent's answer may depend
    on everything that happened before.  The two constructors that look
    for a key of their own are given the environment they look in:
    [ChatOpenAI] when the key it is passed is empty, [genai.Client()]
    always. *)
Record External : Type := mkExternal {
  dotenv : gmap string string;
  toolbox : string + Toolset;
  agent_answer : list Event → Invocation → string + list Message;
  genai_answer : string → string → string + string;
  openai_keyless : gmap string string → string + unit;
  genai_client : gmap string string → string + unit
}.

(** A process that has just started, with environment block [env]. *)
Definition fresh (env : gmap string string) : World :=
  mkWorld env (mkSession None None None) [] 0.

(** The agent invocations and the agent constructions of a log. *)
Definition invocations (tr : list Event) : list Invocation :=
  omap (λ e, if e is Invoke inv then Some inv else None) tr.

Definition agents_created (tr : list Event) : list ReactAgent :=
  omap (λ e, if e is CreateReactAgent a then Some a else None) tr.


(** What was logged between the state [w] and the later state [w']. *)
Definition events_since (w w' : World) : list Event :=
  drop (length (trace w)) (trace w').

Definition set_environ (f : gmap string string → gmap string string) (w : World) : World :=
  mkWorld (f (environ w)) (session_state w) (trace w) (next_object w).

Definition set_session (f : SessionState → SessionState) (w : World) : World :=
  mkWorld (environ w) (f (session_state w)) (trace w) (next_object w).

Definition log (e : Event) (w : World) : World :=
  mkWorld (environ w) (session_state w) (trace w ++ [e]) (next_object w).

Definition logs (evs : list Event) (w : World) : World :=
  mkWorld (environ w) (session_state w) (trace w ++ evs) (next_object w).

Definition emit (e : Event) : M World unit := modify (log e).

Definition render (x : Widget) : M World unit := emit (Render x).

(** The outcome of a library call. *)
Definition library {A} (r : string + A) : M World A :=
  match r with
  | inl err => raise (LibraryError err)
  | inr a => ret a
  end.

Section Libraries.
Variable ext : External.

(** [load_dotenv()]: variables of the [.env] file are added, those already
    in the environment are kept. *)
Definition load_dotenv : M World unit :=
  emit LoadDotenv;;
  modify (set_environ (λ env, env ∪ dotenv ext)).

(** [os.getenv(k)], [os.environ.get(k)] *)
Definition os_getenv (k : string) : M World (option string) :=
  w ← get; mret (environ w !! k).

(** [os.environ[k]] *)
Definition os_environ_getitem (k : string) : M World string :=
  w ← get;
  match environ w !! k with
  | Some v => mret v
  | None => raise (KeyError k)
  end.

(** [os.environ[k] = v] *)
Definition os_environ_setitem (k v : string) : M World unit :=
  modify (set_environ (insert k v)).

(** [ToolboxClient(url).load_toolset()] *)
Definition load_toolset (url : string) : M World Toolset :=
  emit (LoadToolset url);;
  library (toolbox ext).

(** [MemorySaver()]: a new object. *)
Definition new_MemorySaver : M World MemorySaver :=
  w ← get;
  modify (λ w, mkWorld (environ w) (session_state w) (trace w) (S (next_object w)));;
  emit (NewMemorySaver (next_object w));;
  mret (next_object w).

(** [ChatOpenAI(model=..., api_key=..., base_url=...)]: a non-empty key is
    taken as it is; an empty one counts as no key, and the constructor
    then looks for one in the environment and raises when it finds none. *)
Definition new_ChatOpenAI (model api_key base_url : string) : M World ChatOpenAI :=
  let c := mkChatOpenAI model api_key base_url in
  w ← get;
  emit (NewChatOpenAI c);;
  (if truthy api_key then mret tt else library (openai_keyless ext (environ w)));;
  mret c.

(** [genai.Client()]: the key is looked for in the environment; the
    constructor raises when it finds none it can use. *)
Definition new_genai_Client : M World unit :=
  w ← get;
  emit NewGenaiClient;;
  library (genai_client ext (environ w)).

Definition create_react_agent (llm : ChatOpenAI) (tools : Toolset)
    (checkpointer : MemorySaver) : M World ReactAgent :=
  let a := mkReactAgent llm tools checkpointer in
  emit (CreateReactAgent a);; mret a.

(** [agent.invoke(input, stream_mode=..., config=...)]; the value is the
    list under the ["messages"] key of the response. *)
Definition agent_invoke (a : ReactAgent) (msgs : list Message)
    (stream_mode : string) (config : Config) : M World (list Message) :=
  let inv := mkInvocation a msgs stream_mode config in
  w ← get;
  emit (Invoke inv);;
  library (agent_answer ext (trace w) inv).

(** [xs[-1]] *)
Definition last_item {A} (xs : list A) : M World A :=
  match last xs with
  | Some x => mret x
  | None => raise (IndexError "list index out of range")
  end.

End Libraries.

(** ** app.py *)

Module App.

(** The values the browser sends with one run of the script. *)
Record Widgets : Type := mkWidgets {
  sidebar_api_key : string;
  button_clicked : bool;
  question : option string;
  chat_prompt : option string
}.

Definition SYSTEM_PROMPT : string :=
"
You are a helpful investment research assistant. Use the provided tools to search for companies, 
people, industries, and news articles from 2023. Leverage prior tool outputs and conversation memory 
to look up entities by ID or filter by attributes like location or sentiment. Use detailed tool outputs 
for filtering or sorting as needed. Do not ask for user confirmations.
".

Definition QUERIES : list string := [
  "What industries deal with neurological implants?";
  "List 5 companies in those industries with descriptions, filtered by California.";
  "Who is working at these companies?";
  "What were the news articles in January 2023 with positive sentiment? List top 5.";
  "Summarize these articles.";
  "Which 3 companies were mentioned in these articles?";
  "Who are the board members at these companies?"
].

(** The module-level objects of lines 24-26. *)
Record Globals : Type := mkGlobals {
  tools : Toolset;
  memory : MemorySaver
}.

(** The second argument of [invoke_agent] as Python sees it: a list, or
    something else. *)
Inductive CallbacksArg : Type :=
| CallbackList (cbs : list Callback)
| NotAList.

(** The list literal of lines 140-143 and 149-152. *)
Definition initial_messages : list Message := [
  SystemMessage SYSTEM_PROMPT;
  AIMessage "How can I help you? You can research companies, articles, people."
].

(** Reads and writes of [st.session_state]. *)
Definition session_set_messages (l : list Message) : M World unit :=
  modify (set_session (λ s, mkSession (Some l) (thread_id s) (threads s))).

Definition session_set_thread_id (t : string) : M World unit :=
  modify (set_session (λ s, mkSession (messages s) (Some t) (threads s))).

Definition session_set_threads (ts : list string) : M World unit :=
  modify (set_session (λ s, mkSession (messages s) (thread_id s) (Some ts))).

(** [st.session_state.messages] *)
Definition session_messages : M World (list Message) :=
  w ← get;
  match messages (session_state w) with
  | Some l => mret l
  | None => raise (AttributeError "messages")
  end.

(** [st.session_state["thread_id"]] *)
Definition session_thread_id : M World string :=
  w ← get;
  match thread_id (session_state w) with
  | Some t => mret t
  | None => raise (KeyError "thread_id")
  end.

(** [st.session_state.get('threads', [])] *)
Definition session_get_threads : M World (list string) :=
  w ← get; mret (default [] (threads (session_state w))).

(** [st.session_state.messages.append(m)] *)
Definition session_messages_append (m : Message) : M World unit :=
  l ← session_messages; session_set_messages (l ++ [m]).

Section Script.
Variable ui : Widgets.
Variable ext : External.

Definition ensure_api_key : M World unit :=
  key ← os_getenv "GEMINI_API_KEY";
  if truthy_opt key then mret tt
  else
    render (SidebarHeader "GEMINI_API_KEY Setup");;
    render (SidebarTextInput "API Key");;
    let api_key := sidebar_api_key ui in
    (if truthy api_key then mret tt
     else
       render (Info "Please enter your GEMINI_API_KEY in the sidebar.");;
       stop);;
    os_environ_setitem "GEMINI_API_KEY" api_key.

Definition initialize_llm : M World ChatOpenAI :=
  key ← os_environ_getitem "GEMINI_API_KEY";
  new_ChatOpenAI ext "gemini-2.5-flash" key
    "https://generativelanguage.googleapis.com/v1beta/openai/".

(** The handler's methods are wrapped so that they run in the script's
    context; the object returned is the handler. *)
Definition get_streamlit_callback : M World Callback :=
  mret StreamlitCallbackHandler.

Definition create_agent (g : Globals) : M World ReactAgent :=
  llm ← initialize_llm;
  create_react_agent llm (tools g) (memory g).

Definition invoke_agent (g : Globals) (messages : list Message)
    (callbacks : CallbacksArg) (thread_id : string) : M World (list Message) :=
  match callbacks with
  | NotAList => raise (TypeError "Callbacks must be a list")
  | CallbackList cbs =>
      agent ← create_agent g;
      agent_invoke ext agent messages "values"
        (mkConfig {["thread_id" := thread_id]} (Some cbs))
  end.

(** Lines 148-154: the body of the [Start New Conversation] button. *)
Definition start_new_conversation : M World unit :=
  session_set_messages initial_messages;;
  ts ← session_get_threads;
  session_set_thread_id ("thread-" +:+ pretty (length ts + 1));;
  ts ← session_get_threads;
  tid ← session_thread_id;
  session_set_threads (ts ++ [tid]).

(** Lines 157-163: the history is drawn, system messages are skipped. *)
Definition display_messages : M World unit :=
  msgs ← session_messages;
  for_each msgs (λ msg,
    match msg with
    | AIMessage c => render (ChatMessage "assistant" c)
    | HumanMessage c => render (ChatMessage "user" c)
    | _ => mret tt
    end).

(** Lines 171-181: one turn of the chat. *)
Definition chat_turn (g : Globals) (prompt : string) : M World unit :=
  session_messages_append (HumanMessage prompt);;
  render (ChatMessage "user" prompt);;
  render (ChatContainer "assistant");;
  render Placeholder;;
  callback ← get_streamlit_callback;
  msgs ← session_messages;
  tid ← session_thread_id;
  response ← invoke_agent g msgs (CallbackList [callback]) tid;
  last ← last_item response;
  let last_message := content last in
  session_messages_append (AIMessage last_message);;
  render (ChatMessage "assistant" last_message).

(** Lines 166-168: [prompt = question or prompt]. *)
Definition user_message : option string :=
  py_or (question ui) (chat_prompt ui).

(** The module body, run from top to bottom on every script run. *)
Definition script : M World unit :=
  load_dotenv ext;;
  tools ← load_toolset ext "http://127.0.0.1:5000";
  memory ← new_MemorySaver;
  let g := mkGlobals tools memory in
  render (PageConfig "Investment Research Agent");;
  render (Title "💼 Investment Research Agent");;
  render (Markdown "### 🧠 LangGraph 🔗 Gen AI Toolbox 📊 Neo4j ⚙️ Streamlit");;
  ensure_api_key;;
  w ← get;
  (if messages (session_state w) is Some _ then mret tt
   else session_set_messages initial_messages);;
  w ← get;
  (if thread_id (session_state w) is Some _ then mret tt
   else session_set_thread_id "thread-1");;
  render (Button "Start New Conversation");;
  (if button_clicked ui then start_new_conversation else mret tt);;
  display_messages;;
  render (Selectbox "Questions" QUERIES);;
  render (ChatInput "Ask a question or select one above");;
  match user_message with
  | Some prompt => if truthy prompt then chat_turn g prompt else mret tt
  | None => mret tt
  end.

End Script.

(** One run of the script: whatever way it ends, the process state it
    leaves is the state the next run starts from. *)
Definition script_run (ui : Widgets) (ext : External) (w : World) : World :=
  (script ui ext w).2.

(** A session is a sequence of runs. *)
Definition runs (rs : list (Widgets * External)) (w : World) : World :=
  foldl (λ w r, script_run r.1 r.2 w) w rs.

(** What one run adds to the log. *)
Definition new_events (ui : Widgets) (ext : External) (w : World) : list Event :=
  events_since w (script_run ui ext w).

(** *** Descriptions of the script's steps, used to state the results *)

(** The run gets as far as drawing the page when the toolset loads and a
    key is found in the environment, in the [.env] file or in the
    sidebar. *)
Definition key_available (ui : Widgets) (ext : External) (w : World) : bool :=
  truthy_opt ((environ w ∪ dotenv ext) !! "GEMINI_API_KEY")
  || truthy (sidebar_api_key ui).

Definition reaches_page (ui : Widgets) (ext : External) (w : World) : bool :=
  match toolbox ext with
  | inr _ => key_available ui ext w
  | inl _ => false
  end.

(** The name line 153 builds. *)
Definition thread_name (n : nat) : string := "thread-" +:+ pretty n.

(** Lines 138-145, and lines 149-154, as functions of the session. *)
Definition init_session (s : SessionState) : SessionState :=
  mkSession (Some (default initial_messages (messages s)))
            (Some (default "thread-1" (thread_id s))) (threads s).

Definition reset_session (s : SessionState) : SessionState :=
  let ts := default [] (threads s) in
  mkSession (Some initial_messages) (Some (thread_name (length ts + 1)))
            (Some (ts ++ [thread_name (length ts + 1)])).

Definition prepare_session (ui : Widgets) (s : SessionState) : SessionState :=
  if button_clicked ui then reset_session (init_session s) else init_session s.

Definition with_messages (l : list Message) (s : SessionState) : SessionState :=
  mkSession (Some l) (thread_id s) (threads s).

(** What is logged by the three phases of a run. *)
Definition boot_events (n : nat) : list Event :=
  [LoadDotenv; LoadToolset "http://127.0.0.1:5000"; NewMemorySaver n;
   Render (PageConfig "Investment Research Agent");
   Render (Title "💼 Investment Research Agent");
   Render (Markdown "### 🧠 LangGraph 🔗 Gen AI Toolbox 📊 Neo4j ⚙️ Streamlit")].

Definition boot (ext : External) (w : World) : World :=
  mkWorld (environ w ∪ dotenv ext) (session_state w)
    (trace w ++ boot_events (next_object w)) (S (next_object w)).

(** The bubble the history loop draws for a message, if any. *)
Definition chat_bubble (m : Message) : option Widget :=
  match m with
  | AIMessage c => Some (ChatMessage "assistant" c)
  | HumanMessage c => Some (ChatMessage "user" c)
  | _ => None
  end.

Definition display_events (msgs : list Message) : list Event :=
  msgs ≫= λ msg,
    match msg with
    | AIMessage c => [Render (ChatMessage "assistant" c)]
    | HumanMessage c => [Render (ChatMessage "user" c)]
    | _ => []
    end.

Definition page_events (l : list Message) : list Event :=
  Render (Button "Start New Conversation") :: display_events l ++
  [Render (Selectbox "Questions" QUERIES);
   Render (ChatInput "Ask a question or select one above")].

Definition page (ui : Widgets) (w : World) : World :=
  let s := prepare_session ui (session_state w) in
  logs (page_events (default [] (messages s))) (set_session (λ _, s) w).

Definition the_llm (key : string) : ChatOpenAI :=
  mkChatOpenAI "gemini-2.5-flash" key
    "https://generativelanguage.googleapis.com/v1beta/openai/".

Definition the_invocation (g : Globals) (key : string) (msgs : list Message)
    (tid : string) : Invocation :=
  mkInvocation (mkReactAgent (the_llm key) (tools g) (memory g)) msgs "values"
    (mkConfig {["thread_id" := tid]} (Some [StreamlitCallbackHandler])).

Definition turn_events (g : Globals) (key prompt : string) : list Event :=
  [Render (ChatMessage "user" prompt); Render (ChatContainer "assistant");
   Render Placeholder; NewChatOpenAI (the_llm key);
   CreateReactAgent (mkReactAgent (the_llm key) (tools g) (memory g))].

(** The assistant message a turn appends, given what the agent did. *)
Definition reply (r : string + list Message) : list Message :=
  match r with
  | inr response =>
      match last response with
      | Some m => [AIMessage (content m)]
      | None => []
      end
  | inl _ => []
  end.

(** A chat history: the system prompt and the greeting, then user and
    assistant messages only. *)
Definition chat_history (l : list Message) : Prop :=
  ∃ rest, l = initial_messages ++ rest ∧
          Forall (λ m, is_AIMessage m || is_HumanMessage m = true) rest.

(** The names of the first [k] resets. *)
Definition reset_names (k : nat) : list string := thread_name <$> seq 1 k.

(** After [k] resets the session lists the names of the [k] resets and
    is on the last of them; before the first reset it has no list and is
    on ["thread-1"], or has not been initialised yet. *)
Definition threads_after (k : nat) (s : SessionState) : Prop :=
  match k with
  | 0 => threads s = None ∧ (thread_id s = None ∨ thread_id s = Some "thread-1")
  | S _ => threads s = Some (reset_names k) ∧ thread_id s = Some (thread_name k)
  end.

(** The message list of a session that started fresh opens with the
    system prompt and the greeting. *)
Definition opens_with_greeting (s : SessionState) : Prop :=
  ∀ l, messages s = Some l → initial_messages `prefix_of` l.

(** The number of runs of a session in which the body of the
    [Start New Conversation] button is executed. *)
Fixpoint resets (rs : list (Widgets * External)) (w : World) : nat :=
  match rs with
  | [] => 0
  | r :: rs' =>
      (if reaches_page r.1 r.2 w && button_clicked r.1 then 1 else 0)
      + resets rs' (script_run r.1 r.2 w)
  end.

End App.

(** ** check_google_genai.py *)

Module CheckGoogleGenai.

(** What a subscript of [os.environ] evaluates to, as far as the test
    [is None] can tell. *)
Inductive PyValue : Type :=
| PyNone
| PyStr (s : string).

Definition is_None (v : PyValue) : bool :=
  match v with PyNone => true | PyStr _ => false end.

Section Script.
Variable ext : External.

(** [client.models.generate_content(model=..., contents=...)]; the value
    is the [text] of the response. *)
Definition generate_content (model contents : string) : M World string :=
  emit (GenerateContent model contents);;
  library (genai_answer ext model contents).

Definition script : M World unit :=
  load_dotenv ext;;
  key ← os_environ_getitem "GEMINI_API_KEY";
  (if is_None (PyStr key) then raise (ValueError "GEMINI_API_KEY not found")
   else mret tt);;
  new_genai_Client ext;;
  response ← generate_content "gemini-2.5-flash" "Explain how AI works in a few words";
  emit (Print response).

End Script.

End CheckGoogleGenai.

(** ** check_toolbox_query_agent.py *)

Module CheckToolboxQueryAgent.

Definition GEMINI_BASE_URL : string :=
  "https://generativelanguage.googleapis.com/v1beta/openai/".

Definition SYSTEM_PROMPT : string :=
"
You are an investment research assistant. Use the provided tools to search for companies, 
people, industries, and news articles from 2023. Leverage prior tool outputs to filter results 
(e.g., by location or sentiment) or as inputs for subsequent queries. Fetch detailed information 
when needed for filtering or sorting. Do not ask for user confirmations.
".

Definition QUERIES : list string := [
  "What industries deal with neurological implants?";
  "List 5 companies in those industries with their description and filter afterwards by California.";
  "Who is working at these companies?";
  "What were the news in January 2023 with positive sentiment? List top 5 articles.";
  "Summarize these articles.";
  "Which 3 companies were mentioned by these articles?";
  "Who is working there as board members?"
].

Definition newline : string := String (Ascii.ascii_of_nat 10) EmptyString.

Section Script.
Variable ext : External.

(** The coroutine is awaited where it is called, so the calls happen one
    after the other. *)
Definition run_agent_query (agent : ReactAgent) (query : string)
    (config : Config) : M World string :=
  let inputs := [RoleMessage "user" (SYSTEM_PROMPT +:+ query)] in
  response ← agent_invoke ext agent inputs "values" config;
  last ← last_item response;
  mret (content last).

(** Lines 61-64: the body of the loop over the questions. *)
Definition process_query (agent : ReactAgent) (config : Config)
    (query : string) : M World unit :=
  emit (Print (newline +:+ query +:+ ":" +:+ newline));;
  response ← run_agent_query agent query config;
  emit (Print ("> " +:+ response));;
  emit (Print "------------------------------------").

(** The statements under [try:] in [main]. *)
Definition main_body (GEMINI_API_KEY : string) : M World unit :=
  model ← new_ChatOpenAI ext "gemini-2.5-flash" GEMINI_API_KEY GEMINI_BASE_URL;
  tools ← load_toolset ext "http://127.0.0.1:5000";
  memory ← new_MemorySaver;
  agent ← create_react_agent model tools memory;
  let config := mkConfig {["thread_id" := "thread-1"]} None in
  for_each QUERIES (process_query agent config).

Definition main (GEMINI_API_KEY : string) : M World unit :=
  try_except (main_body GEMINI_API_KEY)
    (λ e, emit (Print ("An error occurred: " +:+ str e))).

(** The module body; [as_main] tells whether the file is run as a script
    ([__name__ == "__main__"]) or imported. *)
Definition script (as_main : bool) : M World unit :=
  load_dotenv ext;;
  GEMINI_API_KEY ← os_getenv "GEMINI_API_KEY";
  match GEMINI_API_KEY with
  | Some key =>
      if truthy key then (if as_main then main key else mret tt)
      else raise (ValueError "GEMINI_API_KEY not found")
  | None => raise (ValueError "GEMINI_API_KEY not found")
  end.

End Script.

(** *** Descriptions used to state the results *)

(** What [run_agent_query] sends for the question [q], and the invocation
    it makes on [agent]. *)
Definition query_message (q : string) : list Message :=
  [RoleMessage "user" (SYSTEM_PROMPT +:+ q)].

Definition query_invocation (agent : ReactAgent) (q : string) : Invocation :=
  mkInvocation agent (query_message q) "values"
    (mkConfig {["thread_id" := "thread-1"]} None).

(** An invocation is answered when the agent returns a response that has
    a last message; otherwise [run_agent_query] raises. *)
Definition answered (r : string + list Message) : bool :=
  match r with
  | inr response => bool_decide (is_Some (last response))
  | inl _ => false
  end.

(** The three lines the loop prints for a question that is answered. *)
Definition header (q : string) : string := newline +:+ q +:+ ":" +:+ newline.


End CheckToolboxQueryAgent.

(** ** Sample inputs

    A process with a key in its environment, a toolbox server and an agent
    that answer, and the widget values of a few typical runs. *)

Definition env_with_key : gmap string string :=
  {["GEMINI_API_KEY" := "secret"]}.

(** The constructors find no key of their own: [ChatOpenAI] raises on an
    empty key, [genai.Client()] unless [GEMINI_API_KEY] is non-empty. *)
Definition no_openai_key (env : gmap string string) : string + unit :=
  inl "The api_key client option must be set either by passing api_key to the client or by setting the OPENAI_API_KEY environment variable".

Definition gemini_key_only (env : gmap string string) : string + unit :=
  if truthy_opt (env !! "GEMINI_API_KEY") then inr tt
  else inl "Missing key inputs argument!".

Definition ext_ok : External :=
  mkExternal ∅ (inr ["search_companies"; "search_news"])
    (λ _ inv, inr (inv_messages inv ++ [AIMessage "Neurotechnology."]))
    (λ _ _, inr "It learns patterns from data.")
    no_openai_key gemini_key_only.

Definition ext_agent_down : External :=
  mkExternal ∅ (inr ["search_companies"; "search_news"])
    (λ _ _, inl "Connection error.")
    (λ _ _, inl "Connection error.")
    no_openai_key gemini_key_only.

Definition ext_toolbox_down : External :=
  mkExternal ∅ (inl "Connection refused")
    (λ _ inv, inr (inv_messages inv ++ [AIMessage "Neurotechnology."]))
    (λ _ _, inr "It learns patterns from data.")
    no_openai_key gemini_key_only.

(** A [.env] file that holds a key. *)
Definition ext_key_in_file : External :=
  mkExternal {["GEMINI_API_KEY" := "from-file"]}
    (inr ["search_companies"; "search_news"])
    (λ _ inv, inr (inv_messages inv ++ [AIMessage "Neurotechnology."]))
    (λ _ _, inr "It learns patterns from data.")
    no_openai_key gemini_key_only.


(** The toolbox server after its tools were changed. *)
Definition ext_other_tools : External :=
  mkExternal ∅ (inr ["search_people"])
    (λ _ inv, inr (inv_messages inv ++ [AIMessage "Neurotechnology."]))
    (λ _ _, inr "It learns patterns from data.")
    no_openai_key gemini_key_only.

Definition ui_idle : App.Widgets := App.mkWidgets "" false None None.

Definition ui_prompt : App.Widgets :=
  App.mkWidgets "" false None (Some "Who works there?").

Definition ui_reset : App.Widgets := App.mkWidgets "" true None None.

Definition ui_both : App.Widgets :=
  App.mkWidgets "" false (Some "Summarize these articles.")
    (Some "Who works there?").

Definition ui_key : App.Widgets := App.mkWidgets "typed-key" false None None.

(** Two turns of one conversation, and a session with three resets. *)
Definition two_turns : list (App.Widgets * External) :=
  [(ui_prompt, ext_ok); (ui_both, ext_ok)].

Definition three_resets : list (App.Widgets * External) :=
  [(ui_reset, ext_ok); (ui_prompt, ext_ok); (ui_reset, ext_ok);
   (ui_reset, ext_toolbox_down); (ui_reset, ext_ok)].

(** The process after one turn of chat. *)
Definition after_one_turn : World :=
  App.script_run ui_prompt ext_ok (fresh env_with_key).

(** * Results *)

(** Running the monad by hand: the binds are unfolded and the state
    records are compared field by field. *)
Ltac py_unfold :=
  unfold mbind, M_bind, bind, mret, M_ret, ret, get, modify, raise, stop,
    emit, render, library in *.

Ltac py_simpl :=
  py_unfold;
  cbn -[lookup union insert singletonM pretty truthy App.initial_messages
        App.QUERIES].

Ltac world_eq :=
  unfold logs, log, set_session, set_environ;
  cbn -[lookup union insert singletonM pretty truthy];
  rewrite <- ?app_assoc; reflexivity.

(** ** Logs *)

Lemma logs_nil w : logs [] w = w.
Proof. destruct w. unfold logs. cbn. by rewrite app_nil_r. Qed.

Lemma logs_logs a b w : logs b (logs a w) = logs (a ++ b) w.
Proof. unfold logs. cbn. by rewrite <- app_assoc. Qed.

Lemma log_eq e w : log e w = logs [e] w.
Proof. done. Qed.

Lemma invocations_app a b : invocations (a ++ b) = invocations a ++ invocations b.
Proof. apply omap_app. Qed.

Lemma agents_created_app a b :
  agents_created (a ++ b) = agents_created a ++ agents_created b.
Proof. apply omap_app. Qed.

(** ** app.py: what each function does to the process state *)

Module AppSteps.
Import App.

Lemma ensure_api_key_eq ui w :
  ensure_api_key ui w =
  if truthy_opt (environ w !! "GEMINI_API_KEY") then (Returned tt, w)
  else if truthy (sidebar_api_key ui) then
    (Returned tt,
     set_environ (insert "GEMINI_API_KEY" (sidebar_api_key ui))
       (logs [Render (SidebarHeader "GEMINI_API_KEY Setup");
              Render (SidebarTextInput "API Key")] w))
  else
    (Stopped,
     logs [Render (SidebarHeader "GEMINI_API_KEY Setup");
           Render (SidebarTextInput "API Key");
           Render (Info "Please enter your GEMINI_API_KEY in the sidebar.")] w).
Proof.
  unfold ensure_api_key, os_getenv, os_environ_setitem. py_simpl.
  destruct (truthy_opt _); [done|].
  destruct (truthy _); py_simpl; world_eq.
Qed.

Lemma initialize_llm_eq ext w :
  initialize_llm ext w =
  match environ w !! "GEMINI_API_KEY" with
  | None => (Raised (KeyError "GEMINI_API_KEY"), w)
  | Some k =>
      if truthy k
      then (Returned (the_llm k), logs [NewChatOpenAI (the_llm k)] w)
      else
        match openai_keyless ext (environ w) with
        | inl err => (Raised (LibraryError err), logs [NewChatOpenAI (the_llm k)] w)
        | inr _ => (Returned (the_llm k), logs [NewChatOpenAI (the_llm k)] w)
        end
  end.
Proof.
  unfold initialize_llm, os_environ_getitem, new_ChatOpenAI. py_simpl.
  destruct (environ w !! "GEMINI_API_KEY") as [k|]; py_simpl; [|done].
  destruct (truthy k); py_simpl; [world_eq|].
  destruct (openai_keyless ext (environ w)) as [err|[]]; py_simpl; world_eq.
Qed.

Lemma create_agent_eq ext g w k :
  environ w !! "GEMINI_API_KEY" = Some k → truthy k = true →
  create_agent ext g w =
  (Returned (mkReactAgent (the_llm k) (tools g) (memory g)),
   logs [NewChatOpenAI (the_llm k);
         CreateReactAgent (mkReactAgent (the_llm k) (tools g) (memory g))] w).
Proof.
  intros Hk Ht. unfold create_agent. py_unfold.
  rewrite initialize_llm_eq, Hk, Ht. unfold create_react_agent. py_simpl.
  f_equal. world_eq.
Qed.

Lemma display_messages_eq w l :
  messages (session_state w) = Some l →
  display_messages w = (Returned tt, logs (display_events l) w).
Proof.
  intros Hl. unfold display_messages, session_messages. py_simpl. rewrite Hl.
  clear Hl. revert w. induction l as [|m l IH]; intros w.
  - by rewrite logs_nil.
  - cbn [for_each]. py_unfold.
    destruct m; cbn -[for_each]; rewrite IH; rewrite ?log_eq, ?logs_logs; done.
Qed.

Lemma invocations_display l : invocations (display_events l) = [].
Proof. induction l as [|[] l IH]; cbn; auto. Qed.

Lemma agents_created_display l : agents_created (display_events l) = [].
Proof. induction l as [|[] l IH]; cbn; auto. Qed.

Lemma invocations_page l : invocations (page_events l) = [].
Proof.
  unfold page_events. cbn [invocations omap list_omap].
  fold (invocations (display_events l ++
    [Render (Selectbox "Questions" QUERIES);
     Render (ChatInput "Ask a question or select one above")])).
  by rewrite invocations_app, invocations_display.
Qed.

Lemma agents_created_page l : agents_created (page_events l) = [].
Proof.
  unfold page_events. cbn [agents_created omap list_omap].
  fold (agents_created (display_events l ++
    [Render (Selectbox "Questions" QUERIES);
     Render (ChatInput "Ask a question or select one above")])).
  by rewrite agents_created_app, agents_created_display.
Qed.

Lemma chat_turn_eq ext g p w l t k :
  messages (session_state w) = Some l →
  thread_id (session_state w) = Some t →
  environ w !! "GEMINI_API_KEY" = Some k → truthy k = true →
  chat_turn ext g p w =
  let msgs := l ++ [HumanMessage p] in
  let inv := the_invocation g k msgs t in
  let w1 := logs (turn_events g k p ++ [Invoke inv])
              (set_session (with_messages msgs) w) in
  match agent_answer ext (trace w ++ turn_events g k p) inv with
  | inl err => (Raised (LibraryError err), w1)
  | inr response =>
      match last response with
      | None => (Raised (IndexError "list index out of range"), w1)
      | Some m =>
          (Returned tt,
           logs [Render (ChatMessage "assistant" (content m))]
             (set_session (with_messages (msgs ++ [AIMessage (content m)])) w1))
      end
  end.
Proof.
  intros Hl Ht Hk Hkt.
  unfold chat_turn, session_messages_append, session_messages, session_thread_id,
    session_set_messages, get_streamlit_callback, invoke_agent, create_agent,
    initialize_llm, os_environ_getitem, new_ChatOpenAI, create_react_agent,
    agent_invoke, last_item.
  py_simpl. rewrite Hl. py_simpl. rewrite Ht. py_simpl. rewrite Hk. py_simpl.
  rewrite Hkt. py_simpl.
  rewrite <- !app_assoc. cbn -[singletonM].
  fold (the_llm k).
  destruct (agent_answer _ _ _) as [err|resp]; py_simpl.
  - world_eq.
  - destruct (last resp) as [m|]; py_simpl; world_eq.
Qed.

Lemma script_eq ui ext w :
  script ui ext w =
  match toolbox ext with
  | inl err =>
      (Raised (LibraryError err),
       logs [LoadDotenv; LoadToolset "http://127.0.0.1:5000"]
         (set_environ (λ env, env ∪ dotenv ext) w))
  | inr ts =>
      match ensure_api_key ui (boot ext w) with
      | (Returned _, w2) =>
          match user_message ui with
          | Some p =>
              if truthy p
              then chat_turn ext (mkGlobals ts (next_object w)) p (page ui w2)
              else (Returned tt, page ui w2)
          | None => (Returned tt, page ui w2)
          end
      | (Stopped, w2) => (Stopped, w2)
      | (Raised e, w2) => (Raised e, w2)
      end
  end.
Proof.
  unfold script, load_dotenv, load_toolset, new_MemorySaver. py_simpl.
  destruct (toolbox ext) as [err|ts]; py_simpl; [world_eq|].
  match goal with |- context [ensure_api_key ui ?w0] =>
    replace w0 with (boot ext w) by (unfold boot, boot_events; world_eq) end.
  destruct (ensure_api_key ui (boot ext w)) as [[[]| |e] w2]; [|done..].
  unfold session_set_messages, session_set_thread_id, start_new_conversation,
    session_get_threads, session_thread_id, session_set_threads,
    page, page_events, prepare_session, reset_session, init_session, thread_name.
  destruct w2 as [env [ms tid ts'] tr n].
  destruct ms as [l|], tid as [t|], (button_clicked ui); py_simpl;
    unfold set_session, log; cbn -[lookup union insert singletonM pretty truthy];
    (erewrite display_messages_eq by reflexivity);
    (destruct (user_message ui) as [p|]; [destruct (truthy p)|]);
    first [ f_equal; world_eq | world_eq ].
Qed.

End AppSteps.

(** ** app.py: the shapes a run can take *)

Module AppRuns.
Import App AppSteps.

Lemma prepare_session_messages ui s :
  messages (prepare_session ui s) =
  Some (if button_clicked ui then initial_messages
        else default initial_messages (messages s)).
Proof. unfold prepare_session. by destruct (button_clicked ui). Qed.

Lemma prepare_session_thread_id ui s :
  thread_id (prepare_session ui s) =
  Some (if button_clicked ui
        then thread_name (length (default [] (threads s)) + 1)
        else default "thread-1" (thread_id s)).
Proof. unfold prepare_session. by destruct (button_clicked ui). Qed.

Lemma prepare_session_threads ui s :
  threads (prepare_session ui s) =
  if button_clicked ui
  then Some (default [] (threads s) ++
             [thread_name (length (default [] (threads s)) + 1)])
  else threads s.
Proof. unfold prepare_session. by destruct (button_clicked ui). Qed.

(** The run ends before the page is drawn: the toolbox server does not
    answer, or no key is to be had. *)
Lemma script_unreached ui ext w :
  reaches_page ui ext w = false →
  ∃ evs,
    session_state (script_run ui ext w) = session_state w ∧
    environ (script_run ui ext w) = environ w ∪ dotenv ext ∧
    trace (script_run ui ext w) = trace w ++ evs ∧
    invocations evs = [] ∧ agents_created evs = [] ∧
    (script ui ext w).1 ≠ Returned tt.
Proof.
  unfold reaches_page, key_available, script_run. rewrite script_eq.
  destruct (toolbox ext) as [err|ts].
  - intros _. eexists. cbn. repeat split; done.
  - intros [H1 H2]%orb_false_elim. rewrite ensure_api_key_eq.
    cbn [environ boot]. rewrite H1, H2. cbn.
    eexists. rewrite <- app_assoc. repeat split; done.
Qed.

(** The run gets to the chat section, in the state [w3]. *)
Lemma script_reached ui ext w ts :
  toolbox ext = inr ts →
  key_available ui ext w = true →
  ∃ w3 k pre,
    session_state w3 = prepare_session ui (session_state w) ∧
    trace w3 = trace w ++ pre ∧
    invocations pre = [] ∧ agents_created pre = [] ∧
    NewMemorySaver (next_object w) ∈ pre ∧
    environ w3 !! "GEMINI_API_KEY" = Some k ∧ truthy k = true ∧
    environ w3 =
      (if truthy_opt ((environ w ∪ dotenv ext) !! "GEMINI_API_KEY")
       then environ w ∪ dotenv ext
       else <["GEMINI_API_KEY" := sidebar_api_key ui]> (environ w ∪ dotenv ext)) ∧
    script ui ext w =
      match user_message ui with
      | Some p =>
          if truthy p
          then chat_turn ext (mkGlobals ts (next_object w)) p w3
          else (Returned tt, w3)
      | None => (Returned tt, w3)
      end.
Proof.
  intros Hts Hkey. rewrite script_eq, Hts, ensure_api_key_eq.
  unfold key_available in Hkey. cbn [environ boot].
  assert (∀ tl, NewMemorySaver (next_object w) ∈ boot_events (next_object w) ++ tl)
    as Hmem by (intros tl; cbn; set_solver).
  destruct (truthy_opt _) eqn:Henv.
  - destruct ((environ w ∪ dotenv ext) !! "GEMINI_API_KEY") as [k|] eqn:Hk; [|done].
    exists (page ui (boot ext w)), k. eexists.
    cbn -[lookup union insert page_events boot_events].
    rewrite <- app_assoc.
    repeat split; try done.
    + by rewrite invocations_app, invocations_page.
    + by rewrite agents_created_app, agents_created_page.
  - cbn in Hkey. rewrite Hkey.
    exists (page ui (set_environ (insert "GEMINI_API_KEY" (sidebar_api_key ui))
      (logs [Render (SidebarHeader "GEMINI_API_KEY Setup");
             Render (SidebarTextInput "API Key")] (boot ext w)))),
      (sidebar_api_key ui).
    eexists.
    cbn -[lookup union insert page_events boot_events].
    rewrite <- !app_assoc.
    repeat split; try done.
    + by rewrite !invocations_app, invocations_page.
    + by rewrite !agents_created_app, agents_created_page.
    + apply lookup_insert_eq.
Qed.

(** A run that draws the page and has no user message. *)
Lemma script_quiet ui ext w :
  reaches_page ui ext w = true →
  truthy_opt (user_message ui) = false →
  (script ui ext w).1 = Returned tt ∧
  session_state (script_run ui ext w) = prepare_session ui (session_state w) ∧
  invocations (new_events ui ext w) = [] ∧
  agents_created (new_events ui ext w) = [] ∧
  environ (script_run ui ext w) =
    (if truthy_opt ((environ w ∪ dotenv ext) !! "GEMINI_API_KEY")
     then environ w ∪ dotenv ext
     else <["GEMINI_API_KEY" := sidebar_api_key ui]> (environ w ∪ dotenv ext)).
Proof.
  unfold reaches_page. destruct (toolbox ext) as [|ts] eqn:Hts; [done|].
  intros Hkey Hmsg.
  destruct (script_reached ui ext w ts Hts Hkey)
    as (w3 & k & pre & Hs & Htr & Hinv & Hag & _ & _ & _ & Henv & Hrun).
  unfold new_events, events_since, script_run. rewrite Hrun.
  assert (match user_message ui with
          | Some p => if truthy p then chat_turn ext (mkGlobals ts (next_object w)) p w3
                      else (Returned tt, w3)
          | None => (Returned tt, w3)
          end = (Returned tt, w3)) as ->.
  { destruct (user_message ui) as [p|]; [|done]. cbn in Hmsg. by rewrite Hmsg. }
  cbn. rewrite Htr, drop_app_length. done.
Qed.

(** A run that draws the page and has a user message [p]. *)
Lemma script_turn ui ext w ts p :
  toolbox ext = inr ts →
  key_available ui ext w = true →
  user_message ui = Some p →
  truthy p = true →
  ∃ k l t tr post,
    messages (prepare_session ui (session_state w)) = Some l ∧
    thread_id (prepare_session ui (session_state w)) = Some t ∧
    environ (script_run ui ext w) !! "GEMINI_API_KEY" = Some k ∧
    environ (script_run ui ext w) =
      (if truthy_opt ((environ w ∪ dotenv ext) !! "GEMINI_API_KEY")
       then environ w ∪ dotenv ext
       else <["GEMINI_API_KEY" := sidebar_api_key ui]> (environ w ∪ dotenv ext)) ∧
    NewMemorySaver (next_object w) ∈ new_events ui ext w ∧
    let inv := the_invocation (mkGlobals ts (next_object w)) k
                 (l ++ [HumanMessage p]) t in
    trace (script_run ui ext w) = tr ++ Invoke inv :: post ∧
    invocations (new_events ui ext w) = [inv] ∧
    agents_created (new_events ui ext w) = [inv_agent inv] ∧
    session_state (script_run ui ext w) =
      with_messages (l ++ HumanMessage p :: reply (agent_answer ext tr inv))
        (prepare_session ui (session_state w)) ∧
    (script ui ext w).1 =
      match agent_answer ext tr inv with
      | inl err => Raised (LibraryError err)
      | inr response =>
          if last response is Some _ then Returned tt
          else Raised (IndexError "list index out of range")
      end.
Proof.
  intros Hts Hkey Hmsg Hp.
  destruct (script_reached ui ext w ts Hts Hkey)
    as (w3 & k & pre & Hs & Htr & Hinv & Hag & Hmem & Hk & Hkt & Henv & Hrun).
  pose proof (prepare_session_messages ui (session_state w)) as Hl.
  pose proof (prepare_session_thread_id ui (session_state w)) as Ht.
  rewrite <- Hs in Hl, Ht.
  rewrite Hmsg, Hp in Hrun.
  rewrite (chat_turn_eq _ _ _ _ _ _ _ Hl Ht Hk Hkt) in Hrun. cbn zeta in Hrun.
  rewrite Hs in Hl, Ht.
  exists k,
    (if button_clicked ui then initial_messages
     else default initial_messages (messages (session_state w))),
    (if button_clicked ui
     then thread_name (length (default [] (threads (session_state w))) + 1)
     else default "thread-1" (thread_id (session_state w))),
    (trace w3 ++ turn_events (mkGlobals ts (next_object w)) k p).
  unfold new_events, events_since, script_run. rewrite Hrun.
  destruct (agent_answer ext _ _) as [err|resp] eqn:Hans.
  - exists [].
    cbn [fst snd trace environ session_state next_object logs set_session].
    rewrite Htr, <- !app_assoc, drop_app_length.
    rewrite !invocations_app, !agents_created_app, Hinv, Hag, Hs.
    split_and!; [done|done|done|done| |done|done|done|done|done].
    apply elem_of_app. by left.
  - destruct (last resp) as [m|] eqn:Hlast.
    + exists [Render (ChatMessage "assistant" (content m))].
      cbn [fst snd trace environ session_state next_object logs set_session].
      rewrite Htr, <- !app_assoc, drop_app_length.
      rewrite !invocations_app, !agents_created_app, Hinv, Hag, Hs.
      cbn [reply]. rewrite Hlast.
      split_and!; [done|done|done|done| |done|done|done| |done].
      * apply elem_of_app. by left.
      * unfold with_messages. cbn [thread_id threads]. by rewrite <- ?app_assoc.
    + exists [].
      cbn [fst snd trace environ session_state next_object logs set_session].
      rewrite Htr, <- !app_assoc, drop_app_length.
      rewrite !invocations_app, !agents_created_app, Hinv, Hag, Hs.
      cbn [reply]. rewrite Hlast.
      split_and!; [done|done|done|done| |done|done|done|done|done].
      apply elem_of_app. by left.
Qed.

End AppRuns.

(** ** app.py: what every run preserves *)

Module AppFacts.
Import App AppSteps AppRuns.

Lemma events_since_app w w' evs :
  trace w' = trace w ++ evs → events_since w w' = evs.
Proof. unfold events_since. intros ->. apply drop_app_length. Qed.

Lemma with_messages_id s l : messages s = Some l → with_messages l s = s.
Proof. destruct s as [ms t ts]. cbn. by intros ->. Qed.

Lemma user_message_cases ui :
  truthy_opt (user_message ui) = false ∨
  ∃ p, user_message ui = Some p ∧ truthy p = true.
Proof.
  destruct (user_message ui) as [p|]; [|by left].
  cbn. destruct (truthy p) eqn:Hp; [right; by exists p | by left].
Qed.

(** A run only adds to the log. *)
Lemma run_trace ui ext w :
  ∃ evs, trace (script_run ui ext w) = trace w ++ evs.
Proof.
  destruct (reaches_page ui ext w) eqn:Hreach.
  - destruct (user_message_cases ui) as [Hq|(p & Hmsg & Hp)].
    + destruct (script_quiet ui ext w Hreach Hq) as (_ & _ & _ & _ & _).
      unfold reaches_page in Hreach.
      destruct (toolbox ext) as [|ts] eqn:Hts; [done|].
      destruct (script_reached ui ext w ts Hts Hreach)
        as (w3 & k & pre & _ & Htr & _ & _ & _ & _ & _ & _ & Hrun).
      assert (script ui ext w = (Returned tt, w3)) as Hrun'.
      { rewrite Hrun. destruct (user_message ui) as [p|]; [|done].
        cbn in Hq. by rewrite Hq. }
      exists pre. unfold script_run. by rewrite Hrun'.
    + unfold reaches_page in Hreach.
      destruct (toolbox ext) as [|ts] eqn:Hts; [done|].
      destruct (script_reached ui ext w ts Hts Hreach)
        as (w3 & k & pre & Hs & Htr & _ & _ & _ & Hk & Hkt & _ & Hrun).
      pose proof (prepare_session_messages ui (session_state w)) as Hl.
      pose proof (prepare_session_thread_id ui (session_state w)) as Ht.
      rewrite <- Hs in Hl, Ht.
      rewrite Hmsg, Hp in Hrun.
      rewrite (chat_turn_eq _ _ _ _ _ _ _ Hl Ht Hk Hkt) in Hrun. cbn zeta in Hrun.
      unfold script_run. rewrite Hrun.
      destruct (agent_answer ext _ _) as [err|resp].
      * eexists. cbn [snd trace logs set_session]. rewrite Htr.
        by rewrite <- app_assoc.
      * destruct (last resp) as [m|]; eexists;
          cbn [snd trace logs set_session]; rewrite Htr;
          rewrite <- ?app_assoc; reflexivity.
  - destruct (script_unreached ui ext w Hreach) as (evs & _ & _ & Htr & _).
    by exists evs.
Qed.

Lemma runs_cons r rs w :
  runs (r :: rs) w = runs rs (script_run r.1 r.2 w).
Proof. done. Qed.

Lemma runs_trace rs w : ∃ evs, trace (runs rs w) = trace w ++ evs.
Proof.
  revert w. induction rs as [|r rs IH]; intros w.
  - exists []. cbn. by rewrite app_nil_r.
  - rewrite runs_cons.
    destruct (run_trace r.1 r.2 w) as (e1 & H1).
    destruct (IH (script_run r.1 r.2 w)) as (e2 & H2).
    exists (e1 ++ e2). by rewrite H2, H1, app_assoc.
Qed.

(** The log of a session is the log of its first run followed by the log
    of the rest. *)
Lemma events_since_runs r rs w :
  events_since w (runs (r :: rs) w) =
  new_events r.1 r.2 w ++
  events_since (script_run r.1 r.2 w) (runs rs (script_run r.1 r.2 w)).
Proof.
  rewrite runs_cons. unfold new_events.
  destruct (run_trace r.1 r.2 w) as (e1 & H1).
  destruct (runs_trace rs (script_run r.1 r.2 w)) as (e2 & H2).
  rewrite (events_since_app _ _ _ H1), (events_since_app _ _ _ H2).
  apply events_since_app. by rewrite H2, H1, app_assoc.
Qed.

(** The session a run leaves behind. *)
Lemma run_session ui ext w :
  if reaches_page ui ext w
  then ∃ extra,
    session_state (script_run ui ext w) =
    with_messages
      ((if button_clicked ui then initial_messages
        else default initial_messages (messages (session_state w))) ++ extra)
      (prepare_session ui (session_state w))
  else session_state (script_run ui ext w) = session_state w.
Proof.
  destruct (reaches_page ui ext w) eqn:Hreach.
  - destruct (user_message_cases ui) as [Hq|(p & Hmsg & Hp)].
    + destruct (script_quiet ui ext w Hreach Hq) as (_ & Hs & _).
      exists []. rewrite Hs, app_nil_r. symmetry. apply with_messages_id.
      apply prepare_session_messages.
    + unfold reaches_page in Hreach.
      destruct (toolbox ext) as [|ts] eqn:Hts; [done|].
      destruct (script_turn ui ext w ts p Hts Hreach Hmsg Hp)
        as (k & l & t & tr & post & Hl & _ & _ & _ & _ & _ & _ & _ & Hs & _).
      rewrite prepare_session_messages in Hl. injection Hl as <-.
      eexists. exact Hs.
  - by destruct (script_unreached ui ext w Hreach) as (evs & Hs & _).
Qed.

(** Without the button, the thread identifier of a session stays. *)
Lemma run_thread_id ui ext w t :
  button_clicked ui = false →
  thread_id (session_state w) = Some t →
  thread_id (session_state (script_run ui ext w)) = Some t.
Proof.
  intros Hb Ht. pose proof (run_session ui ext w) as H.
  destruct (reaches_page ui ext w).
  - destruct H as (extra & ->). cbn [with_messages thread_id].
    rewrite prepare_session_thread_id, Hb, Ht. done.
  - by rewrite H.
Qed.

(** The agent invocations of a run: none or one, under the thread
    identifier the session has when the run ends, with the session's
    messages up to the user's. *)
Lemma run_invocations ui ext w :
  invocations (new_events ui ext w) = [] ∨
  ∃ ts k l t p,
    toolbox ext = inr ts ∧
    user_message ui = Some p ∧ truthy p = true ∧
    messages (prepare_session ui (session_state w)) = Some l ∧
    thread_id (session_state (script_run ui ext w)) = Some t ∧
    invocations (new_events ui ext w) =
      [the_invocation (mkGlobals ts (next_object w)) k (l ++ [HumanMessage p]) t].
Proof.
  destruct (reaches_page ui ext w) eqn:Hreach.
  - destruct (user_message_cases ui) as [Hq|(p & Hmsg & Hp)].
    + left. by destruct (script_quiet ui ext w Hreach Hq) as (_ & _ & Hi & _).
    + right. unfold reaches_page in Hreach.
      destruct (toolbox ext) as [|ts] eqn:Hts; [done|].
      destruct (script_turn ui ext w ts p Hts Hreach Hmsg Hp)
        as (k & l & t & tr & post & Hl & Ht & _ & _ & _ & _ & Hi & _ & Hs & _).
      exists ts, k, l, t, p. split_and!; try done.
      rewrite Hs. exact Ht.
  - left. destruct (script_unreached ui ext w Hreach) as (evs & _ & _ & Htr & Hi & _).
    unfold new_events. by rewrite (events_since_app _ _ _ Htr).
Qed.

(** The agents a run builds: none or one, from this run's toolset and
    this run's [MemorySaver]. *)
Lemma run_agents ui ext w :
  agents_created (new_events ui ext w) = [] ∨
  ∃ ts k,
    toolbox ext = inr ts ∧
    NewMemorySaver (next_object w) ∈ new_events ui ext w ∧
    agents_created (new_events ui ext w) =
      [mkReactAgent (the_llm k) ts (next_object w)].
Proof.
  destruct (reaches_page ui ext w) eqn:Hreach.
  - destruct (user_message_cases ui) as [Hq|(p & Hmsg & Hp)].
    + left. by destruct (script_quiet ui ext w Hreach Hq) as (_ & _ & _ & Ha & _).
    + right. unfold reaches_page in Hreach.
      destruct (toolbox ext) as [|ts] eqn:Hts; [done|].
      destruct (script_turn ui ext w ts p Hts Hreach Hmsg Hp)
        as (k & l & t & tr & post & _ & _ & _ & _ & Hmem & _ & _ & Ha & _).
      exists ts, k. done.
  - left. destruct (script_unreached ui ext w Hreach) as (evs & _ & _ & Htr & _ & Ha & _).
    unfold new_events. by rewrite (events_since_app _ _ _ Htr).
Qed.

(** The environment a run leaves behind. *)
Lemma run_environ ui ext w :
  environ (script_run ui ext w) =
  if reaches_page ui ext w
     && negb (truthy_opt ((environ w ∪ dotenv ext) !! "GEMINI_API_KEY"))
  then <["GEMINI_API_KEY" := sidebar_api_key ui]> (environ w ∪ dotenv ext)
  else environ w ∪ dotenv ext.
Proof.
  destruct (reaches_page ui ext w) eqn:Hreach; cbn [andb].
  - destruct (user_message_cases ui) as [Hq|(p & Hmsg & Hp)].
    + destruct (script_quiet ui ext w Hreach Hq) as (_ & _ & _ & _ & ->).
      destruct (truthy_opt ((environ w ∪ dotenv ext) !! "GEMINI_API_KEY"));
        reflexivity.
    + unfold reaches_page in Hreach.
      destruct (toolbox ext) as [|ts] eqn:Hts; [done|].
      destruct (script_turn ui ext w ts p Hts Hreach Hmsg Hp)
        as (k & l & t & tr & post & _ & _ & _ & -> & _).
      destruct (truthy_opt ((environ w ∪ dotenv ext) !! "GEMINI_API_KEY"));
        reflexivity.
  - by destruct (script_unreached ui ext w Hreach) as (evs & _ & -> & _).
Qed.

(** A key that is set stays set, run after run. *)
Lemma run_key_kept ui ext w k :
  environ w !! "GEMINI_API_KEY" = Some k → truthy k = true →
  environ (script_run ui ext w) !! "GEMINI_API_KEY" = Some k.
Proof.
  intros Hk Ht. rewrite run_environ.
  rewrite (lookup_union_Some_l _ _ _ _ Hk). cbn [truthy_opt]. rewrite Ht.
  rewrite andb_false_r. by apply lookup_union_Some_l.
Qed.

Lemma runs_key_kept rs w k :
  environ w !! "GEMINI_API_KEY" = Some k → truthy k = true →
  environ (runs rs w) !! "GEMINI_API_KEY" = Some k.
Proof.
  revert w. induction rs as [|r rs IH]; intros w Hk Ht; [done|].
  rewrite runs_cons. apply IH; [|done]. by apply run_key_kept.
Qed.

End AppFacts.

(** ** app.py: the session across runs *)

Module AppSession.
Import App AppSteps AppRuns AppFacts.

Lemma truthy_true s : truthy s = true ↔ s ≠ "".
Proof. unfold truthy. apply bool_decide_eq_true. Qed.

Lemma truthy_false s : truthy s = false ↔ s = "".
Proof.
  unfold truthy. rewrite bool_decide_eq_false.
  split; [|by intros -> ?]. intros H. by destruct (decide (s = "")).
Qed.

Lemma queries_truthy q : q ∈ QUERIES → truthy q = true.
Proof.
  unfold QUERIES. intros H.
  repeat (apply elem_of_cons in H as [-> | H]; [by vm_compute|]).
  by apply elem_of_nil in H.
Qed.

Lemma thread_name_1 : thread_name 1 = "thread-1".
Proof. by vm_compute. Qed.

(** The run stops in [ensure_api_key]. *)
Lemma script_stop_eq ui ext w ts :
  toolbox ext = inr ts →
  truthy_opt ((environ w ∪ dotenv ext) !! "GEMINI_API_KEY") = false →
  truthy (sidebar_api_key ui) = false →
  script ui ext w =
  (Stopped,
   logs [Render (SidebarHeader "GEMINI_API_KEY Setup");
         Render (SidebarTextInput "API Key");
         Render (Info "Please enter your GEMINI_API_KEY in the sidebar.")]
     (boot ext w)).
Proof.
  intros Hts H1 H2. rewrite script_eq, Hts, ensure_api_key_eq.
  cbn [environ boot]. by rewrite H1, H2.
Qed.

Lemma create_agent_no_key ext g w :
  environ w !! "GEMINI_API_KEY" = None →
  (create_agent ext g w).1 = Raised (KeyError "GEMINI_API_KEY").
Proof.
  intros Hk. unfold create_agent, initialize_llm, os_environ_getitem.
  py_simpl. by rewrite Hk.
Qed.

(** The thread bookkeeping of a run. *)
Lemma run_threads ui ext w :
  threads (session_state (script_run ui ext w)) =
  if reaches_page ui ext w && button_clicked ui
  then Some (default [] (threads (session_state w)) ++
             [thread_name (length (default [] (threads (session_state w))) + 1)])
  else threads (session_state w).
Proof.
  pose proof (run_session ui ext w) as H.
  destruct (reaches_page ui ext w); cbn [andb].
  - destruct H as (extra & ->). cbn [with_messages threads].
    apply prepare_session_threads.
  - by rewrite H.
Qed.

Lemma run_thread_id_eq ui ext w :
  thread_id (session_state (script_run ui ext w)) =
  if reaches_page ui ext w
  then Some (if button_clicked ui
             then thread_name (length (default [] (threads (session_state w))) + 1)
             else default "thread-1" (thread_id (session_state w)))
  else thread_id (session_state w).
Proof.
  pose proof (run_session ui ext w) as H.
  destruct (reaches_page ui ext w).
  - destruct H as (extra & ->). cbn [with_messages thread_id].
    apply prepare_session_thread_id.
  - by rewrite H.
Qed.

Lemma reset_names_S k : reset_names (S k) = reset_names k ++ [thread_name (S k)].
Proof. unfold reset_names. by rewrite seq_S, fmap_app. Qed.

Lemma reset_names_length k : length (reset_names k) = k.
Proof. unfold reset_names. by rewrite length_fmap, length_seq. Qed.

Lemma threads_after_default k s :
  threads_after k s → default [] (threads s) = reset_names k.
Proof. destruct k; intros [-> _]; done. Qed.

Lemma run_threads_after ui ext w k :
  threads_after k (session_state w) →
  threads_after
    (k + if reaches_page ui ext w && button_clicked ui then 1 else 0)
    (session_state (script_run ui ext w)).
Proof.
  intros Hk. pose proof (threads_after_default _ _ Hk) as Hd.
  unfold threads_after.
  rewrite run_threads, run_thread_id_eq, Hd, reset_names_length.
  destruct (reaches_page ui ext w); cbn [andb].
  - destruct (button_clicked ui).
    + replace (k + 1) with (S k) by lia. by rewrite reset_names_S.
    + rewrite Nat.add_0_r. destruct k.
      * destruct Hk as [-> [-> | ->]]; split; auto.
      * destruct Hk as [-> ->]. done.
  - by rewrite Nat.add_0_r.
Qed.

Lemma runs_threads_after rs w k :
  threads_after k (session_state w) →
  threads_after (k + resets rs w) (session_state (runs rs w)).
Proof.
  revert w k. induction rs as [|r rs IH]; intros w k Hk.
  - cbn. by rewrite Nat.add_0_r.
  - rewrite runs_cons. cbn [resets]. rewrite Nat.add_assoc.
    apply IH. by apply run_threads_after.
Qed.

Lemma run_opens_with_greeting ui ext w :
  opens_with_greeting (session_state w) →
  opens_with_greeting (session_state (script_run ui ext w)).
Proof.
  intros Hw. pose proof (run_session ui ext w) as H.
  destruct (reaches_page ui ext w); [|by rewrite H].
  destruct H as (extra & ->). intros l. cbn [with_messages messages].
  intros [= <-]. apply prefix_app_r.
  destruct (button_clicked ui); [done|].
  destruct (messages (session_state w)) as [l0|] eqn:Hl0; [|done].
  by apply Hw.
Qed.

Lemma runs_opens_with_greeting rs w :
  opens_with_greeting (session_state w) →
  opens_with_greeting (session_state (runs rs w)).
Proof.
  revert w. induction rs as [|r rs IH]; intros w Hw; [done|].
  rewrite runs_cons. apply IH. by apply run_opens_with_greeting.
Qed.



Lemma runs_thread_id rs w t :
  Forall (λ r : Widgets * External, button_clicked r.1 = false) rs →
  thread_id (session_state w) = Some t →
  thread_id (session_state (runs rs w)) = Some t.
Proof.
  intros Hrs. revert w. induction Hrs as [|r rs Hb _ IH]; intros w Ht; [done|].
  rewrite runs_cons. apply IH. by apply run_thread_id.
Qed.

End AppSession.

(** ** app.py: the objects and the history of a session *)

Module AppObjects.
Import App AppSteps AppRuns AppFacts AppSession.

(** The state in which a run enters the chat section, with the identity
    counter it has there. *)
Lemma script_reached_world ui ext w ts :
  toolbox ext = inr ts →
  key_available ui ext w = true →
  ∃ w3 k,
    session_state w3 = prepare_session ui (session_state w) ∧
    next_object w3 = S (next_object w) ∧
    environ w3 !! "GEMINI_API_KEY" = Some k ∧ truthy k = true ∧
    script ui ext w =
      match user_message ui with
      | Some p =>
          if truthy p
          then chat_turn ext (mkGlobals ts (next_object w)) p w3
          else (Returned tt, w3)
      | None => (Returned tt, w3)
      end.
Proof.
  intros Hts Hkey. rewrite script_eq, Hts, ensure_api_key_eq.
  unfold key_available in Hkey. cbn [environ boot].
  destruct (truthy_opt _) eqn:Henv.
  - destruct ((environ w ∪ dotenv ext) !! "GEMINI_API_KEY") as [k|] eqn:Hk; [|done].
    exists (page ui (boot ext w)), k. done.
  - cbn in Hkey. rewrite Hkey.
    exists (page ui (set_environ (insert "GEMINI_API_KEY" (sidebar_api_key ui))
      (logs [Render (SidebarHeader "GEMINI_API_KEY Setup");
             Render (SidebarTextInput "API Key")] (boot ext w)))),
      (sidebar_api_key ui).
    split_and!; [done|done| |done|done].
    cbn [environ page logs set_session set_environ]. apply lookup_insert_eq.
Qed.

(** Every run that loads the toolset uses up one object identity, for its
    [MemorySaver]; a run that does not load it uses none. *)
Lemma run_next_object ui ext w :
  next_object (script_run ui ext w) =
  match toolbox ext with
  | inr _ => S (next_object w)
  | inl _ => next_object w
  end.
Proof.
  destruct (toolbox ext) as [err|ts] eqn:Hts.
  - unfold script_run. by rewrite script_eq, Hts.
  - destruct (key_available ui ext w) eqn:Hkey.
    + destruct (script_reached_world ui ext w ts Hts Hkey)
        as (w3 & k & Hs & Hn & Hk & Hkt & Hrun).
      unfold script_run. rewrite Hrun.
      destruct (user_message ui) as [p|]; [|done].
      destruct (truthy p); [|done].
      pose proof (prepare_session_messages ui (session_state w)) as Hl.
      pose proof (prepare_session_thread_id ui (session_state w)) as Ht.
      rewrite <- Hs in Hl, Ht.
      rewrite (chat_turn_eq _ _ _ _ _ _ _ Hl Ht Hk Hkt). cbn zeta.
      destruct (agent_answer ext _ _) as [err|resp]; [done|].
      by destruct (last resp).
    + unfold key_available in Hkey. apply orb_false_elim in Hkey as [H1 H2].
      unfold script_run.
      by rewrite (script_stop_eq ui ext w ts Hts H1 H2).
Qed.

Lemma runs_next_object rs w : next_object w ≤ next_object (runs rs w).
Proof.
  revert w. induction rs as [|r rs IH]; intros w; [done|].
  rewrite runs_cons. etrans; [|apply IH]. rewrite run_next_object.
  destruct (toolbox r.2); lia.
Qed.

Lemma run_agent_invoked ui ext w :
  inv_agent <$> invocations (new_events ui ext w) =
  agents_created (new_events ui ext w).
Proof.
  destruct (reaches_page ui ext w) eqn:Hreach; last first.
  { destruct (script_unreached ui ext w Hreach) as (evs & _ & _ & Htr & Hi & Ha & _).
    unfold new_events. by rewrite (events_since_app _ _ _ Htr), Hi, Ha. }
  destruct (user_message_cases ui) as [Hq|(p & Hmsg & Hp)].
  { by destruct (script_quiet ui ext w Hreach Hq) as (_ & _ & -> & -> & _). }
  unfold reaches_page in Hreach.
  destruct (toolbox ext) as [|ts] eqn:Hts; [done|].
  by destruct (script_turn ui ext w ts p Hts Hreach Hmsg Hp)
    as (k & l & t & tr & post & _ & _ & _ & _ & _ & _ & -> & -> & _).
Qed.

(** Agents built in two different runs are built on two different memory
    objects. *)
Lemma agents_of_two_runs ui ext rs ui' ext' w a a' :
  a ∈ agents_created (new_events ui ext w) →
  a' ∈ agents_created (new_events ui' ext' (runs rs (script_run ui ext w))) →
  checkpointer a ≠ checkpointer a'.
Proof.
  intros Ha Ha'.
  destruct (run_agents ui ext w) as [H | (ts & k & Hts & _ & H)];
    rewrite H in Ha; [by apply elem_of_nil in Ha|].
  apply list_elem_of_singleton in Ha as ->.
  destruct (run_agents ui' ext' (runs rs (script_run ui ext w)))
    as [H' | (ts' & k' & _ & _ & H')];
    rewrite H' in Ha'; [by apply elem_of_nil in Ha'|].
  apply list_elem_of_singleton in Ha' as ->.
  cbn [checkpointer].
  pose proof (runs_next_object rs (script_run ui ext w)) as Hle.
  rewrite run_next_object, Hts in Hle. lia.
Qed.

(** The agent of a run is built on the toolset the run loaded. *)
Lemma agent_tools_of_run ui ext w a :
  a ∈ agents_created (new_events ui ext w) →
  toolbox ext = inr (agent_tools a) ∧ checkpointer a = next_object w.
Proof.
  intros Ha.
  destruct (run_agents ui ext w) as [H | (ts & k & Hts & _ & H)];
    rewrite H in Ha; [by apply elem_of_nil in Ha|].
  by apply list_elem_of_singleton in Ha as ->.
Qed.

(** A run builds at most one agent. *)
Lemma agents_of_a_run ui ext w : length (agents_created (new_events ui ext w)) ≤ 1.
Proof.
  destruct (run_agents ui ext w) as [-> | (ts & k & _ & _ & ->)]; cbn; lia.
Qed.

(** A turn: the run reaches the chat section and has a user message. *)
Lemma run_turn ui ext w p :
  reaches_page ui ext w = true →
  user_message ui = Some p → truthy p = true →
  ∃ ts k l t,
    toolbox ext = inr ts ∧ k ≠ "" ∧
    messages (prepare_session ui (session_state w)) = Some l ∧
    thread_id (prepare_session ui (session_state w)) = Some t ∧
    thread_id (session_state (script_run ui ext w)) = Some t ∧
    NewMemorySaver (next_object w) ∈ new_events ui ext w ∧
    let inv := the_invocation (mkGlobals ts (next_object w)) k
                 (l ++ [HumanMessage p]) t in
    invocations (new_events ui ext w) = [inv] ∧
    agents_created (new_events ui ext w) = [inv_agent inv] ∧
    ∃ extra, length extra ≤ 1 ∧
      messages (session_state (script_run ui ext w)) =
        Some (inv_messages inv ++ extra).
Proof.
  intros Hreach Hmsg Hp. unfold reaches_page in Hreach.
  destruct (toolbox ext) as [|ts] eqn:Hts; [done|].
  destruct (script_reached ui ext w ts Hts Hreach)
    as (w3 & k0 & pre & _ & _ & _ & _ & _ & Hk0 & Hkt & Henv0 & _).
  destruct (script_turn ui ext w ts p Hts Hreach Hmsg Hp)
    as (k & l & t & tr & post & Hl & Ht & Hk & Henv & Hmem & _ & Hi & Ha & Hs & _).
  assert (k = k0) as ->.
  { rewrite Henv, <- Henv0, Hk0 in Hk. by injection Hk. }
  exists ts, k0, l, t. split_and!; [done|by apply truthy_true|done|done| |done|].
  { rewrite Hs. exact Ht. }
  cbn zeta. split_and!; [done|done|].
  exists (reply (agent_answer ext tr
            (the_invocation (mkGlobals ts (next_object w)) k0
               (l ++ [HumanMessage p]) t))).
  split.
  - destruct (agent_answer ext tr _) as [err|resp]; cbn [reply length]; [lia|].
    destruct (last resp); cbn; lia.
  - rewrite Hs. cbn [with_messages messages the_invocation inv_messages].
    by rewrite <- app_assoc.
Qed.

Lemma prepare_chat_history ui s l :
  (∀ l0, messages s = Some l0 → chat_history l0) →
  messages (prepare_session ui s) = Some l → chat_history l.
Proof.
  intros Hs. rewrite prepare_session_messages. intros [= <-].
  assert (chat_history initial_messages) as H0.
  { exists []. by rewrite app_nil_r. }
  destruct (button_clicked ui); [done|].
  destruct (messages s) as [l0|]; [by apply Hs|done].
Qed.

Lemma run_chat_history ui ext w :
  (∀ l, messages (session_state w) = Some l → chat_history l) →
  ∀ l, messages (session_state (script_run ui ext w)) = Some l → chat_history l.
Proof.
  intros Hw l.
  destruct (reaches_page ui ext w) eqn:Hreach; last first.
  { destruct (script_unreached ui ext w Hreach) as (evs & -> & _). apply Hw. }
  destruct (user_message_cases ui) as [Hq|(p & Hmsg & Hp)].
  { destruct (script_quiet ui ext w Hreach Hq) as (_ & -> & _).
    by apply prepare_chat_history. }
  unfold reaches_page in Hreach.
  destruct (toolbox ext) as [|ts] eqn:Hts; [done|].
  destruct (script_turn ui ext w ts p Hts Hreach Hmsg Hp)
    as (k & l1 & t & tr & post & Hl1 & _ & _ & _ & _ & _ & _ & _ & -> & _).
  cbn [with_messages messages]. intros [= <-].
  destruct (prepare_chat_history ui _ l1 Hw Hl1) as (rest & -> & Hrest).
  exists (rest ++ HumanMessage p :: reply (agent_answer ext tr
            (the_invocation (mkGlobals ts (next_object w)) k
               ((initial_messages ++ rest) ++ [HumanMessage p]) t))).
  split; [by rewrite <- app_assoc|].
  apply Forall_app. split; [done|]. apply Forall_cons_2; [done|].
  destruct (agent_answer ext tr _) as [err|resp]; cbn [reply]; [constructor|].
  destruct (last resp); repeat constructor.
Qed.

Lemma runs_chat_history rs w :
  (∀ l, messages (session_state w) = Some l → chat_history l) →
  ∀ l, messages (session_state (runs rs w)) = Some l → chat_history l.
Proof.
  revert w. induction rs as [|r rs IH]; intros w Hw; [done|].
  rewrite runs_cons. apply IH. by apply run_chat_history.
Qed.

End AppObjects.

(** ** app.py: the claims *)

Module AppClaims.
Import App AppSteps AppRuns AppFacts AppSession AppObjects.

(** C1, as amended.  On every turn (a run that reaches the chat section
    with a user message) the agent is invoked once, and the configuration
    it is passed holds, as the whole of its ["configurable"] dictionary,
    the thread identifier of the session, beside the callback.  Through a
    conversation (runs without the [Start New Conversation] button) the
    identifier stays the same, so all its turns are sent under one thread
    key.  The memory object the key is used on is the [MemorySaver] the
    run created at its top: the invocations of two different runs reach
    two different memory objects. *)
Theorem thread_id_of_every_invocation :
  (∀ ui ext w p,
     reaches_page ui ext w = true →
     user_message ui = Some p → truthy p = true →
     ∃ inv t,
       invocations (new_events ui ext w) = [inv] ∧
       thread_id (prepare_session ui (session_state w)) = Some t ∧
       thread_id (session_state (script_run ui ext w)) = Some t ∧
       inv_config inv =
         mkConfig {["thread_id" := t]} (Some [StreamlitCallbackHandler]) ∧
       checkpointer (inv_agent inv) = next_object w ∧
       NewMemorySaver (next_object w) ∈ new_events ui ext w) ∧
  (∀ ui ext w,
     Forall (λ inv, ∃ t,
               thread_id (session_state (script_run ui ext w)) = Some t ∧
               inv_config inv =
                 mkConfig {["thread_id" := t]} (Some [StreamlitCallbackHandler]))
       (invocations (new_events ui ext w))) ∧
  (∀ (rs : list (Widgets * External)) w t,
     thread_id (session_state w) = Some t →
     Forall (λ r : Widgets * External, button_clicked r.1 = false) rs →
     thread_id (session_state (runs rs w)) = Some t ∧
     Forall (λ inv, inv_config inv =
                      mkConfig {["thread_id" := t]} (Some [StreamlitCallbackHandler]))
       (invocations (events_since w (runs rs w)))) ∧
  (∀ ui ext (rs : list (Widgets * External)) ui' ext' w inv inv',
     inv ∈ invocations (new_events ui ext w) →
     inv' ∈ invocations (new_events ui' ext' (runs rs (script_run ui ext w))) →
     checkpointer (inv_agent inv) ≠ checkpointer (inv_agent inv')).
Proof.
  assert (∀ ui ext w,
     Forall (λ inv, ∃ t,
               thread_id (session_state (script_run ui ext w)) = Some t ∧
               inv_config inv =
                 mkConfig {["thread_id" := t]} (Some [StreamlitCallbackHandler]))
       (invocations (new_events ui ext w))) as Hrun.
  { intros ui ext w.
    destruct (run_invocations ui ext w)
      as [-> | (ts & k & l & t & p & _ & _ & _ & _ & Ht & ->)]; [constructor|].
    repeat constructor. by exists t. }
  split_and!; [|exact Hrun| |].
  - intros ui ext w p Hreach Hmsg Hp.
    destruct (run_turn ui ext w p Hreach Hmsg Hp)
      as (ts & k & l & t & _ & _ & _ & Ht & Ht' & Hmem & Hi & _).
    eexists _, t. split_and!; [exact Hi|done|done|done|done|done].
  - intros rs w t Ht Hrs. split; [by apply runs_thread_id|].
    revert w Ht. induction Hrs as [|r rs Hb _ IH]; intros w Ht.
    + unfold events_since. cbn. rewrite drop_all. constructor.
    + rewrite events_since_runs, invocations_app. apply Forall_app. split.
      * eapply Forall_impl; [apply Hrun|].
        intros inv (t' & Ht' & ->).
        rewrite (run_thread_id _ _ _ _ Hb Ht) in Ht'. by injection Ht' as <-.
      * apply IH. by apply run_thread_id.
  - intros ui ext rs ui' ext' w inv inv' Hinv Hinv'.
    apply (agents_of_two_runs ui ext rs ui' ext' w);
      rewrite <- run_agent_invoked; apply list_elem_of_fmap; eauto.
Qed.

Lemma thread_id_of_every_invocation_witness :
  ∃ inv t,
    invocations (new_events ui_prompt ext_ok after_one_turn) = [inv] ∧
    thread_id (prepare_session ui_prompt (session_state after_one_turn)) = Some t ∧
    thread_id (session_state (script_run ui_prompt ext_ok after_one_turn)) = Some t ∧
    inv_config inv =
      mkConfig {["thread_id" := t]} (Some [StreamlitCallbackHandler]) ∧
    checkpointer (inv_agent inv) = next_object after_one_turn ∧
    NewMemorySaver (next_object after_one_turn)
      ∈ new_events ui_prompt ext_ok after_one_turn.
Proof.
  apply (proj1 thread_id_of_every_invocation ui_prompt ext_ok after_one_turn
           "Who works there?"); by vm_compute.
Defined.

(** C1, as stated, fails: the two turns of one conversation are both sent
    under the key ["thread-1"], the first to the memory object of the first
    run and the second to the memory object of the second run, so the
    second turn does not use the object the first turn used. *)
Lemma turns_reach_different_memory_objects :
  let evs := trace (runs two_turns (fresh env_with_key)) in
  Forall (λ r : Widgets * External, button_clicked r.1 = false) two_turns ∧
  (λ inv, configurable (inv_config inv) !! "thread_id") <$> invocations evs =
    [Some "thread-1"; Some "thread-1"] ∧
  (λ inv, checkpointer (inv_agent inv)) <$> invocations evs = [0; 1] ∧
  omap (λ e, if e is NewMemorySaver n then Some n else None) evs = [0; 1].
Proof.
  cbv zeta. split_and!; [repeat constructor|by vm_compute..].
Qed.

(** C2, as amended.  A user message is present when a question is
    selected or a non-empty prompt is typed.  On a run that reaches the
    chat section with a user message, the agent is invoked exactly once,
    on the session's list with the user's message appended; when the run
    completes the list has grown by that message and one assistant
    message, and when the agent call fails, by that message alone.  On a
    run that reaches the chat section without a user message, the agent is
    not invoked and the session is the one the initialisation and the
    button leave: the message list is the previous one when there is one
    and the button is not pressed.  A run that does not reach the chat
    section invokes nothing and leaves the session as it was. *)
Theorem chat_turn_accounting (ui : Widgets) (ext : External) (w : World) :
  truthy_opt (user_message ui) =
    truthy_opt (question ui) || truthy_opt (chat_prompt ui) ∧
  (reaches_page ui ext w = true →
   ∀ p, user_message ui = Some p → truthy p = true →
     ∃ l inv,
       messages (prepare_session ui (session_state w)) = Some l ∧
       invocations (new_events ui ext w) = [inv] ∧
       inv_messages inv = l ++ [HumanMessage p] ∧
       ((script ui ext w).1 = Returned tt →
        ∃ a, messages (session_state (script_run ui ext w)) =
             Some (l ++ [HumanMessage p; AIMessage a])) ∧
       ((script ui ext w).1 ≠ Returned tt →
        messages (session_state (script_run ui ext w)) =
        Some (l ++ [HumanMessage p]))) ∧
  (reaches_page ui ext w = true →
   truthy_opt (user_message ui) = false →
     invocations (new_events ui ext w) = [] ∧
     session_state (script_run ui ext w) = prepare_session ui (session_state w) ∧
     (button_clicked ui = false →
      ∀ l, messages (session_state w) = Some l →
           messages (session_state (script_run ui ext w)) = Some l)) ∧
  (reaches_page ui ext w = false →
     invocations (new_events ui ext w) = [] ∧
     session_state (script_run ui ext w) = session_state w).
Proof.
  split_and!.
  - unfold user_message, py_or.
    destruct (truthy_opt (question ui)) eqn:Hq; [by rewrite Hq|done].
  - intros Hreach p Hmsg Hp. unfold reaches_page in Hreach.
    destruct (toolbox ext) as [|ts] eqn:Hts; [done|].
    destruct (script_turn ui ext w ts p Hts Hreach Hmsg Hp)
      as (k & l & t & tr & post & Hl & _ & _ & _ & _ & _ & Hi & _ & Hs & Ho).
    eexists l, _. split_and!; [done|exact Hi|done| |].
    + intros Hret. rewrite Hret in Ho. rewrite Hs.
      destruct (agent_answer ext tr _) as [err|resp]; [done|].
      cbn [reply]. destruct (last resp) as [m|]; [|done].
      by exists (content m).
    + intros Hret. rewrite Hs.
      destruct (agent_answer ext tr _) as [err|resp]; [done|].
      cbn [reply]. destruct (last resp) as [m|]; [|done].
      by rewrite Ho in Hret.
  - intros Hreach Hq.
    destruct (script_quiet ui ext w Hreach Hq) as (_ & Hs & Hi & _).
    split_and!; [done|done|].
    intros Hb l Hl. by rewrite Hs, prepare_session_messages, Hb, Hl.
  - intros Hreach.
    destruct (script_unreached ui ext w Hreach) as (evs & Hs & _ & Htr & Hi & _).
    unfold new_events. by rewrite (events_since_app _ _ _ Htr).
Qed.

Lemma chat_turn_accounting_witness :
  ∃ l inv,
    messages (prepare_session ui_prompt (session_state after_one_turn)) = Some l ∧
    invocations (new_events ui_prompt ext_ok after_one_turn) = [inv] ∧
    inv_messages inv = l ++ [HumanMessage "Who works there?"] ∧
    ((script ui_prompt ext_ok after_one_turn).1 = Returned tt →
     ∃ a, messages (session_state (script_run ui_prompt ext_ok after_one_turn)) =
          Some (l ++ [HumanMessage "Who works there?"; AIMessage a])) ∧
    ((script ui_prompt ext_ok after_one_turn).1 ≠ Returned tt →
     messages (session_state (script_run ui_prompt ext_ok after_one_turn)) =
     Some (l ++ [HumanMessage "Who works there?"])).
Proof.
  apply (proj1 (proj2 (chat_turn_accounting ui_prompt ext_ok after_one_turn)));
    by vm_compute.
Defined.

(** C2, as stated, fails: a run with no user message in which the button
    is pressed replaces the message list; a run with a user message whose
    agent call fails appends the user's message only; and a run with a
    user message that finds the toolbox server down invokes nothing. *)
Lemma run_without_message_changes_list :
  (user_message ui_reset = None ∧
   messages (session_state (script_run ui_reset ext_ok after_one_turn)) ≠
   messages (session_state after_one_turn)) ∧
  (user_message ui_prompt = Some "Who works there?" ∧
   messages (session_state (script_run ui_prompt ext_agent_down after_one_turn)) =
   option_map (λ l, l ++ [HumanMessage "Who works there?"])
     (messages (session_state after_one_turn))) ∧
  (user_message ui_prompt = Some "Who works there?" ∧
   invocations (new_events ui_prompt ext_toolbox_down after_one_turn) = []).
Proof.
  split_and!; by vm_compute.
Qed.

(** C3. [ensure_api_key] returns at once, leaving the process as it
    is, when [GEMINI_API_KEY] is set to a non-empty value.  When the
    variable is absent it draws the sidebar input; a key typed there is
    stored in the environment, where every later run of the script still
    finds it; without one the function stops, and the script with it:
    nothing after the call is executed. *)
Theorem ensure_api_key_behaviour (ui : Widgets) (w : World) :
  (∀ v, environ w !! "GEMINI_API_KEY" = Some v → v ≠ "" →
        ensure_api_key ui w = (Returned tt, w)) ∧
  (environ w !! "GEMINI_API_KEY" = None → sidebar_api_key ui ≠ "" →
   ∃ w', ensure_api_key ui w = (Returned tt, w') ∧
         environ w' = <["GEMINI_API_KEY" := sidebar_api_key ui]> (environ w) ∧
         session_state w' = session_state w ∧
         Render (SidebarTextInput "API Key") ∈ events_since w w' ∧
         (∀ rs, environ (runs rs w') !! "GEMINI_API_KEY" = Some (sidebar_api_key ui))) ∧
  (environ w !! "GEMINI_API_KEY" = None → sidebar_api_key ui = "" →
   ∃ w', ensure_api_key ui w = (Stopped, w') ∧
         environ w' = environ w ∧ session_state w' = session_state w ∧
         Render (SidebarTextInput "API Key") ∈ events_since w w') ∧
  (∀ ext ts,
     toolbox ext = inr ts →
     (environ w ∪ dotenv ext) !! "GEMINI_API_KEY" = None →
     sidebar_api_key ui = "" →
     (script ui ext w).1 = Stopped ∧
     session_state (script_run ui ext w) = session_state w ∧
     (Render (Button "Start New Conversation") ∉ new_events ui ext w) ∧
     invocations (new_events ui ext w) = []).
Proof.
  split_and!.
  - intros v Hv Hne. rewrite ensure_api_key_eq, Hv. cbn [truthy_opt].
    by rewrite (proj2 (truthy_true v) Hne).
  - intros Hk Hne. rewrite ensure_api_key_eq, Hk. cbn [truthy_opt].
    rewrite (proj2 (truthy_true _) Hne).
    eexists. split_and!; [done|done|done| |].
    + unfold events_since. cbn [trace set_environ logs].
      rewrite drop_app_length. set_solver.
    + intros rs. apply runs_key_kept.
      * cbn [environ set_environ logs]. apply lookup_insert_eq.
      * by apply truthy_true.
  - intros Hk He. rewrite ensure_api_key_eq, Hk. cbn [truthy_opt].
    rewrite (proj2 (truthy_false _) He).
    eexists. split_and!; [done|done|done|].
    unfold events_since. cbn [trace logs]. rewrite drop_app_length. set_solver.
  - intros ext ts Hts Hk He.
    assert (truthy_opt ((environ w ∪ dotenv ext) !! "GEMINI_API_KEY") = false)
      as Hk' by (by rewrite Hk).
    pose proof (script_stop_eq ui ext w ts Hts Hk' (proj2 (truthy_false _) He))
      as Hrun.
    unfold new_events, events_since, script_run. rewrite Hrun.
    cbn [fst snd session_state trace logs boot].
    rewrite <- app_assoc, drop_app_length.
    split_and!; [done|done| |done].
    unfold boot_events. cbn [app]. intros H.
    repeat (apply elem_of_cons in H as [H|H]; [discriminate H|]).
    by apply elem_of_nil in H.
Qed.

Lemma ensure_api_key_behaviour_witness :
  ensure_api_key ui_idle (fresh env_with_key) = (Returned tt, fresh env_with_key).
Proof.
  apply (proj1 (ensure_api_key_behaviour ui_idle (fresh env_with_key)) "secret").
  - by vm_compute.
  - discriminate.
Defined.


(** C4, as amended.  A call of [create_agent] that finds a non-empty
    [GEMINI_API_KEY] builds a [ChatOpenAI] client for the model
    ["gemini-2.5-flash"] at Google's OpenAI-compatible endpoint and hands
    it to [create_react_agent] with the module's [tools] and [memory].
    These are the toolset the toolbox server returned and the
    [MemorySaver] created at the top of the script run in which the call
    is made.  A turn makes one call and a run at most one; the calls of
    two different runs get two different memory objects, and each gets
    the toolset its own run loaded. *)
Theorem create_agent_configuration :
  (∀ ext g w k,
     environ w !! "GEMINI_API_KEY" = Some k → k ≠ "" →
     create_agent ext g w =
     (Returned
        (mkReactAgent
           (mkChatOpenAI "gemini-2.5-flash" k
              "https://generativelanguage.googleapis.com/v1beta/openai/")
           (tools g) (memory g)),
      logs [NewChatOpenAI (the_llm k);
            CreateReactAgent (mkReactAgent (the_llm k) (tools g) (memory g))] w)) ∧
  (∀ ui ext w p,
     reaches_page ui ext w = true →
     user_message ui = Some p → truthy p = true →
     ∃ a,
       agents_created (new_events ui ext w) = [a] ∧
       model (llm a) = "gemini-2.5-flash" ∧
       base_url (llm a) =
         "https://generativelanguage.googleapis.com/v1beta/openai/" ∧
       toolbox ext = inr (agent_tools a) ∧
       checkpointer a = next_object w ∧
       NewMemorySaver (checkpointer a) ∈ new_events ui ext w) ∧
  (∀ ui ext w, length (agents_created (new_events ui ext w)) ≤ 1) ∧
  (∀ ui ext (rs : list (Widgets * External)) ui' ext' w a a',
     a ∈ agents_created (new_events ui ext w) →
     a' ∈ agents_created (new_events ui' ext' (runs rs (script_run ui ext w))) →
     checkpointer a ≠ checkpointer a' ∧
     toolbox ext = inr (agent_tools a) ∧
     toolbox ext' = inr (agent_tools a')).
Proof.
  split_and!.
  - intros ext g w k Hk Hne.
    by rewrite (create_agent_eq ext g w k Hk (proj2 (truthy_true k) Hne)).
  - intros ui ext w p Hreach Hmsg Hp.
    destruct (run_turn ui ext w p Hreach Hmsg Hp)
      as (ts & k & l & t & Hts & _ & _ & _ & _ & Hmem & _ & Ha & _).
    eexists. split; [exact Ha|]. by cbn.
  - apply agents_of_a_run.
  - intros ui ext rs ui' ext' w a a' Ha Ha'. split_and!.
    + by apply (agents_of_two_runs ui ext rs ui' ext' w).
    + by apply (agent_tools_of_run ui ext w).
    + by apply (agent_tools_of_run ui' ext' (runs rs (script_run ui ext w))).
Qed.

Lemma create_agent_configuration_witness :
  create_agent ext_ok (mkGlobals ["search_news"] 7) (fresh env_with_key) =
  (Returned
     (mkReactAgent
        (mkChatOpenAI "gemini-2.5-flash" "secret"
           "https://generativelanguage.googleapis.com/v1beta/openai/")
        ["search_news"] 7),
   logs [NewChatOpenAI (the_llm "secret");
         CreateReactAgent (mkReactAgent (the_llm "secret") ["search_news"] 7)]
     (fresh env_with_key)).
Proof.
  apply (proj1 create_agent_configuration ext_ok (mkGlobals ["search_news"] 7)
           (fresh env_with_key) "secret").
  - by vm_compute.
  - discriminate.
Defined.

(** C4, as stated, fails: the two calls of [create_agent] that two turns
    of a session make are passed two different memory objects, and two
    different tool lists when the toolbox server has changed its tools in
    between. *)
Lemma agents_of_two_runs_differ :
  let evs := trace (runs [(ui_prompt, ext_ok); (ui_prompt, ext_other_tools)]
                      (fresh env_with_key)) in
  checkpointer <$> agents_created evs = [0; 1] ∧
  agent_tools <$> agents_created evs =
    [["search_companies"; "search_news"]; ["search_people"]].
Proof. split; by vm_compute. Qed.



(** C8. A session starts on ["thread-1"].  After [k] executions of the
    body of the [Start New Conversation] button the session lists the
    identifiers ["thread-1"], ..., ["thread-k"] and is on ["thread-k"]: the
    first reset gives ["thread-1"] again, the identifier the session
    started with. *)
Theorem reset_thread_identifiers :
  thread_name 1 = "thread-1" ∧
  (∀ ui ext w,
     reaches_page ui ext w = true → button_clicked ui = false →
     thread_id (session_state w) = None →
     thread_id (session_state (script_run ui ext w)) = Some "thread-1") ∧
  (∀ ui ext w,
     reaches_page ui ext w = true → button_clicked ui = true →
     threads (session_state w) = None →
     thread_id (session_state (script_run ui ext w)) = Some "thread-1" ∧
     threads (session_state (script_run ui ext w)) = Some ["thread-1"]) ∧
  (∀ env rs,
     let s := session_state (runs rs (fresh env)) in
     let k := resets rs (fresh env) in
     (k = 0 → threads s = None ∧
              (thread_id s = None ∨ thread_id s = Some "thread-1")) ∧
     (1 ≤ k → threads s = Some (thread_name <$> seq 1 k) ∧
              thread_id s = Some (thread_name k))).
Proof.
  split_and!.
  - apply thread_name_1.
  - intros ui ext w Hreach Hb Ht. by rewrite run_thread_id_eq, Hreach, Hb, Ht.
  - intros ui ext w Hreach Hb Hts.
    rewrite run_thread_id_eq, run_threads, Hreach, Hb, Hts.
    split; by vm_compute.
  - intros env rs s k.
    pose proof (runs_threads_after rs (fresh env) 0) as H.
    cbn [Nat.add] in H. fold k in H. fold s in H.
    assert (threads_after 0 (session_state (fresh env))) as H0 by (split; auto).
    specialize (H H0). split.
    + intros Hk. by rewrite Hk in H.
    + intros Hk. destruct k; [lia|]. exact H.
Qed.

Lemma reset_thread_identifiers_witness :
  threads (session_state (runs three_resets (fresh env_with_key))) =
    Some ["thread-1"; "thread-2"; "thread-3"] ∧
  thread_id (session_state (runs three_resets (fresh env_with_key))) =
    Some "thread-3".
Proof.
  assert (resets three_resets (fresh env_with_key) = 3) as Hk by (by vm_compute).
  pose proof (proj2 (proj2 (proj2 (proj2 reset_thread_identifiers))
                       env_with_key three_resets)) as H.
  cbv zeta in H. rewrite Hk in H. apply H. lia.
Defined.

(** C9. When a question of the dropdown is selected, it is the user
    message, whatever is typed: the typed prompt has no influence on the
    run, and on a run that reaches the chat section the agent is invoked
    once, on the session's list with the question as the last message.
    The typed prompt is the user message when no question is selected: a
    non-empty prompt is then what the one invocation ends with. *)
Theorem dropdown_overrides_prompt (ui : Widgets) :
  (∀ q, question ui = Some q → q ∈ QUERIES →
     user_message ui = Some q ∧
     (∀ p' ext w,
        script ui ext w =
        script (mkWidgets (sidebar_api_key ui) (button_clicked ui) (Some q) p')
          ext w) ∧
     (∀ ext w,
        reaches_page ui ext w = true →
        ∃ l inv,
          messages (prepare_session ui (session_state w)) = Some l ∧
          invocations (new_events ui ext w) = [inv] ∧
          inv_messages inv = l ++ [HumanMessage q])) ∧
  (question ui = None →
     user_message ui = chat_prompt ui ∧
     (∀ p ext w,
        chat_prompt ui = Some p → p ≠ "" →
        reaches_page ui ext w = true →
        ∃ l inv,
          messages (prepare_session ui (session_state w)) = Some l ∧
          invocations (new_events ui ext w) = [inv] ∧
          inv_messages inv = l ++ [HumanMessage p])).
Proof.
  assert (∀ p ext w,
    user_message ui = Some p → truthy p = true →
    reaches_page ui ext w = true →
    ∃ l inv,
      messages (prepare_session ui (session_state w)) = Some l ∧
      invocations (new_events ui ext w) = [inv] ∧
      inv_messages inv = l ++ [HumanMessage p]) as Hsent.
  { intros p ext w Hmsg Hp Hreach.
    destruct (run_turn ui ext w p Hreach Hmsg Hp)
      as (ts & k & l & t & _ & _ & Hl & _ & _ & _ & Hi & _).
    eexists l, _. split_and!; [done|exact Hi|done]. }
  split.
  - intros q Hq Hin. pose proof (queries_truthy q Hin) as Ht.
    assert (user_message ui = Some q) as Hmsg.
    { unfold user_message, py_or. rewrite Hq. cbn [truthy_opt]. by rewrite Ht. }
    split_and!; [done| |].
    + intros p' ext w. rewrite !script_eq, !ensure_api_key_eq.
      unfold page, prepare_session, user_message, py_or.
      cbn [sidebar_api_key button_clicked question chat_prompt].
      rewrite Hq. cbn [truthy_opt]. rewrite Ht. reflexivity.
    + intros ext w. by apply Hsent.
  - intros Hq.
    assert (user_message ui = chat_prompt ui) as Hmsg.
    { unfold user_message, py_or. by rewrite Hq. }
    split; [done|]. intros p ext w Hp Hne. apply Hsent.
    + by rewrite Hmsg.
    + by apply truthy_true.
Qed.

Lemma dropdown_overrides_prompt_witness :
  ∃ l inv,
    messages (prepare_session ui_both (session_state after_one_turn)) = Some l ∧
    invocations (new_events ui_both ext_ok after_one_turn) = [inv] ∧
    inv_messages inv = l ++ [HumanMessage "Summarize these articles."].
Proof.
  assert ("Summarize these articles." ∈ QUERIES) as Hin.
  { apply list_elem_of_In. unfold QUERIES. do 4 right. by left. }
  apply (proj2 (proj2 (proj1 (dropdown_overrides_prompt ui_both)
                         "Summarize these articles." eq_refl Hin))
           ext_ok after_one_turn).
  by vm_compute.
Defined.

End AppClaims.

(** ** The console scripts: what each does to the process state *)

Module ScriptSteps.


Lemma genai_script_eq ext w :
  CheckGoogleGenai.script ext w =
  let w1 := set_environ (λ env, env ∪ dotenv ext) w in
  match (environ w ∪ dotenv ext) !! "GEMINI_API_KEY" with
  | None => (Raised (KeyError "GEMINI_API_KEY"), logs [LoadDotenv] w1)
  | Some _ =>
      match genai_client ext (environ w ∪ dotenv ext) with
      | inl err => (Raised (LibraryError err), logs [LoadDotenv; NewGenaiClient] w1)
      | inr _ =>
          let call := GenerateContent "gemini-2.5-flash"
                        "Explain how AI works in a few words" in
          match genai_answer ext "gemini-2.5-flash"
                  "Explain how AI works in a few words" with
          | inl err =>
              (Raised (LibraryError err),
               logs [LoadDotenv; NewGenaiClient; call] w1)
          | inr text =>
              (Returned tt, logs [LoadDotenv; NewGenaiClient; call; Print text] w1)
          end
      end
  end.
Proof.
  unfold CheckGoogleGenai.script, CheckGoogleGenai.generate_content,
    load_dotenv, os_environ_getitem, new_genai_Client.
  py_simpl.
  destruct ((environ w ∪ dotenv ext) !! "GEMINI_API_KEY") as [v|]; py_simpl;
    [|world_eq].
  destruct (genai_client ext _) as [err|[]]; py_simpl; [world_eq|].
  destruct (genai_answer ext _ _) as [err|text]; py_simpl; world_eq.
Qed.

Import CheckToolboxQueryAgent.

(** One pass of the loop of [main]. *)
Lemma process_query_eq ext agent q w :
  process_query ext agent (mkConfig {["thread_id" := "thread-1"]} None) q w =
  let header := Print (newline +:+ q +:+ ":" +:+ newline) in
  let inv := query_invocation agent q in
  match agent_answer ext (trace w ++ [header]) inv with
  | inl err => (Raised (LibraryError err), logs [header; Invoke inv] w)
  | inr response =>
      match last response with
      | None => (Raised (IndexError "list index out of range"),
                 logs [header; Invoke inv] w)
      | Some m =>
          (Returned tt,
           logs [header; Invoke inv; Print ("> " +:+ content m);
                 Print "------------------------------------"] w)
      end
  end.
Proof.
  unfold process_query, run_agent_query, agent_invoke, last_item,
    query_invocation, query_message.
  py_simpl.
  destruct (agent_answer ext _ _) as [err|resp]; py_simpl; [world_eq|].
  destruct (last resp) as [m|]; py_simpl; world_eq.
Qed.

Lemma for_each_cons {A} (x : A) xs (body : A → M World unit) w :
  for_each (x :: xs) body w =
  match body x w with
  | (Returned _, w') => for_each xs body w'
  | (Stopped, w') => (Stopped, w')
  | (Raised e, w') => (Raised e, w')
  end.
Proof. done. Qed.

(** The loop over the questions: it asks them in order, each under
    ["thread-1"], until one fails.  An invocation that is not answered is
    the last thing the loop does. *)
Lemma queries_loop ext agent qs w :
  let r := for_each qs
             (process_query ext agent
                (mkConfig {["thread_id" := "thread-1"]} None)) w in
  r.1 ≠ Stopped ∧
  ∃ evs n,
    r.2 = logs evs w ∧
    n ≤ length qs ∧
    invocations evs = query_invocation agent <$> take n qs ∧
    agents_created evs = [] ∧
    (r.1 = Returned tt → n = length qs) ∧
    (∀ i inv,
       evs !! i = Some (Invoke inv) →
       answered (agent_answer ext (trace w ++ take i evs) inv) = false →
       S i = length evs ∧ ∃ e, r.1 = Raised e).
Proof.
  revert w. induction qs as [|q qs IH]; intros w; cbn zeta.
  - split; [done|]. exists [], 0. rewrite logs_nil. split_and!; done.
  - rewrite for_each_cons, process_query_eq. cbn zeta.
    destruct (agent_answer ext _ _) as [err|resp] eqn:Hans.
    + split; [done|]. eexists _, 1.
      split_and!; [done|cbn; lia|done|done|done|].
      intros [|[|i]] inv Hi Hno; [done| |done]. split; [done|by eexists].
    + destruct (last resp) as [m|] eqn:Hlast.
      * destruct (IH (logs [Print (newline +:+ q +:+ ":" +:+ newline);
                            Invoke (query_invocation agent q);
                            Print ("> " +:+ content m);
                            Print "------------------------------------"] w))
          as (Hns & evs & n & Hw & Hn & Hi & Ha & Hret & Hstop).
        cbn zeta in Hns, Hw, Hret, Hstop. split; [done|].
        eexists _, (S n). rewrite Hw, logs_logs.
        split_and!; [done|cbn; lia| | | |].
        -- rewrite invocations_app, Hi. done.
        -- rewrite agents_created_app, Ha. done.
        -- intros H. cbn [length]. f_equal. by apply Hret.
        -- intros [|[|[|[|i]]]] inv Hev Hno; [done| |done|done|].
           ++ cbn in Hev. injection Hev as <-. cbn [take app] in Hno.
              rewrite Hans in Hno. cbn [answered] in Hno. rewrite Hlast in Hno.
              by rewrite bool_decide_eq_false in Hno; destruct Hno.
           ++ cbn [app lookup list_lookup] in Hev. cbn [take app] in Hno.
              cbn [logs trace] in Hstop.
              destruct (Hstop i inv Hev) as [Hlen He].
              { rewrite <- app_assoc. exact Hno. }
              split; [|done]. cbn [app length]. by rewrite Hlen.
      * split; [done|]. eexists _, 1.
        split_and!; [done|cbn; lia|done|done|done|].
        intros [|[|i]] inv Hi Hno; [done| |done]. split; [done|by eexists].
Qed.

(** The statements under [try:]. *)
Lemma main_body_eq ext key w :
  main_body ext key w =
  let llm := mkChatOpenAI "gemini-2.5-flash" key GEMINI_BASE_URL in
  match (if truthy key then inr tt else openai_keyless ext (environ w)) with
  | inl err => (Raised (LibraryError err), logs [NewChatOpenAI llm] w)
  | inr _ =>
      match toolbox ext with
      | inl err =>
          (Raised (LibraryError err),
           logs [NewChatOpenAI llm; LoadToolset "http://127.0.0.1:5000"] w)
      | inr ts =>
          let agent := mkReactAgent llm ts (next_object w) in
          for_each QUERIES
            (process_query ext agent (mkConfig {["thread_id" := "thread-1"]} None))
            (mkWorld (environ w) (session_state w)
               (trace w ++ [NewChatOpenAI llm; LoadToolset "http://127.0.0.1:5000";
                            NewMemorySaver (next_object w); CreateReactAgent agent])
               (S (next_object w)))
      end
  end.
Proof.
  unfold main_body, new_ChatOpenAI, load_toolset, new_MemorySaver,
    create_react_agent.
  py_unfold.
  cbn -[lookup union insert singletonM pretty truthy QUERIES process_query for_each].
  destruct (truthy key).
  - cbn -[lookup union insert singletonM pretty truthy QUERIES process_query for_each].
    destruct (toolbox ext) as [err|ts];
      cbn -[lookup union insert singletonM pretty truthy QUERIES process_query for_each].
    + world_eq.
    + f_equal. unfold log. cbn [environ session_state trace next_object].
      by rewrite <- !app_assoc.
  - destruct (openai_keyless ext (environ w)) as [err|[]];
      cbn -[lookup union insert singletonM pretty truthy QUERIES process_query for_each];
      [world_eq|].
    destruct (toolbox ext) as [err|ts];
      cbn -[lookup union insert singletonM pretty truthy QUERIES process_query for_each].
    + world_eq.
    + f_equal. unfold log. cbn [environ session_state trace next_object].
      by rewrite <- !app_assoc.
Qed.

Lemma main_body_not_stopped ext key w : (main_body ext key w).1 ≠ Stopped.
Proof.
  rewrite main_body_eq. cbn zeta.
  destruct (if truthy key then _ else _) as [err|[]]; [done|].
  destruct (toolbox ext) as [err|ts]; [done|].
  apply queries_loop.
Qed.



Lemma main_eq ext key w :
  main ext key w =
  match main_body ext key w with
  | (Raised e, w') => (Returned tt, logs [Print ("An error occurred: " +:+ str e)] w')
  | r => r
  end.
Proof.
  unfold main, try_except. destruct (main_body ext key w) as [[[]| |e] w']; done.
Qed.


Lemma toolbox_script_eq ext as_main w :
  script ext as_main w =
  let w1 := logs [LoadDotenv] (set_environ (λ env, env ∪ dotenv ext) w) in
  match (environ w ∪ dotenv ext) !! "GEMINI_API_KEY" with
  | Some key =>
      if truthy key then (if as_main then main ext key w1 else (Returned tt, w1))
      else (Raised (ValueError "GEMINI_API_KEY not found"), w1)
  | None => (Raised (ValueError "GEMINI_API_KEY not found"), w1)
  end.
Proof.
  unfold script, load_dotenv, os_getenv. py_simpl.
  destruct ((environ w ∪ dotenv ext) !! "GEMINI_API_KEY") as [key|]; [|world_eq].
  destruct (truthy key); [|world_eq].
  destruct as_main; [f_equal|]; world_eq.
Qed.

End ScriptSteps.

(** ** The console scripts and the failure handling: the claims *)

Module ScriptClaims.
Import ScriptSteps.

(** C5, as amended.  The one exception handler of the repository is the
    [try]/[except] of [main] in [check_toolbox_query_agent.py]: whatever
    the statements under [try:] raise is caught and printed, so [main]
    always returns.  The code raises errors of its own: the module body of
    [check_toolbox_query_agent.py] raises [ValueError] when the key is
    missing or empty, before [main] and so outside the handler, and
    [invoke_agent] raises [TypeError] when its callbacks are not a list.
    Nothing is caught in [app.py] or in [check_google_genai.py]: a failing
    library call (the toolset load, the Gemini client, the completion)
    ends the run with its exception. *)
Theorem failure_handling :
  (∀ ext key w, (CheckToolboxQueryAgent.main ext key w).1 = Returned tt) ∧
  (∀ ext key w e,
     (CheckToolboxQueryAgent.main_body ext key w).1 = Raised e →
     trace (CheckToolboxQueryAgent.main ext key w).2 =
     trace (CheckToolboxQueryAgent.main_body ext key w).2 ++
     [Print ("An error occurred: " +:+ str e)]) ∧
  (∀ ext as_main w,
     truthy_opt ((environ w ∪ dotenv ext) !! "GEMINI_API_KEY") = false →
     (CheckToolboxQueryAgent.script ext as_main w).1 =
       Raised (ValueError "GEMINI_API_KEY not found") ∧
     events_since w (CheckToolboxQueryAgent.script ext as_main w).2 = [LoadDotenv]) ∧
  (∀ ext g msgs t w,
     App.invoke_agent ext g msgs App.NotAList t w =
     (Raised (TypeError "Callbacks must be a list"), w)) ∧
  (∀ ui ext w err,
     toolbox ext = inl err →
     (App.script ui ext w).1 = Raised (LibraryError err)) ∧
  (∀ ext w v err,
     (environ w ∪ dotenv ext) !! "GEMINI_API_KEY" = Some v →
     genai_client ext (environ w ∪ dotenv ext) = inl err →
     (CheckGoogleGenai.script ext w).1 = Raised (LibraryError err)) ∧
  (∀ ext w v u err,
     (environ w ∪ dotenv ext) !! "GEMINI_API_KEY" = Some v →
     genai_client ext (environ w ∪ dotenv ext) = inr u →
     genai_answer ext "gemini-2.5-flash" "Explain how AI works in a few words"
       = inl err →
     (CheckGoogleGenai.script ext w).1 = Raised (LibraryError err)).
Proof.
  split_and!.
  - intros ext key w. rewrite main_eq.
    pose proof (main_body_not_stopped ext key w) as Hns.
    destruct (CheckToolboxQueryAgent.main_body ext key w) as [[[]| |e] w']; done.
  - intros ext key w e He. rewrite main_eq.
    destruct (CheckToolboxQueryAgent.main_body ext key w) as [o w'].
    cbn [fst] in He. by rewrite He.
  - intros ext as_main w Hk. rewrite toolbox_script_eq. cbn zeta.
    destruct ((environ w ∪ dotenv ext) !! "GEMINI_API_KEY") as [key|].
    + cbn [truthy_opt] in Hk. rewrite Hk. split; [done|].
      unfold events_since. cbn [snd trace logs set_environ].
      apply drop_app_length.
    + split; [done|]. unfold events_since. cbn [snd trace logs set_environ].
      apply drop_app_length.
  - done.
  - intros ui ext w err Herr. by rewrite AppSteps.script_eq, Herr.
  - intros ext w v err Hv Herr. by rewrite genai_script_eq, Hv, Herr.
  - intros ext w v u err Hv Hu Herr. by rewrite genai_script_eq, Hv, Hu, Herr.
Qed.

Lemma failure_handling_witness :
  (CheckToolboxQueryAgent.script ext_ok true (fresh ∅)).1 =
    Raised (ValueError "GEMINI_API_KEY not found") ∧
  events_since (fresh ∅) (CheckToolboxQueryAgent.script ext_ok true (fresh ∅)).2 =
    [LoadDotenv].
Proof.
  apply (proj1 (proj2 (proj2 failure_handling)) ext_ok true (fresh ∅)).
  by vm_compute.
Defined.

(** C5, as stated, fails: with no key in the environment the module body
    of [check_toolbox_query_agent.py] raises a [ValueError] of its own, and
    [invoke_agent] raises a [TypeError] of its own when the callbacks are
    not a list. *)
Lemma typed_errors_are_raised :
  (CheckToolboxQueryAgent.script ext_ok true (fresh ∅)).1 =
    Raised (ValueError "GEMINI_API_KEY not found") ∧
  (App.invoke_agent ext_ok (App.mkGlobals [] 0) App.initial_messages
     App.NotAList "thread-1" (fresh env_with_key)).1 =
    Raised (TypeError "Callbacks must be a list").
Proof. split; by vm_compute. Qed.




(** C10. In [check_google_genai.py] the [ValueError] of line 8 is never
    raised.  When [GEMINI_API_KEY] is absent the subscript
    [os.environ[...]] raises [KeyError] and nothing after it is executed;
    when it is present the value is a string, which is not [None], so the
    test fails and the script goes on to build the Gemini client.  What
    ends the run then is the library: the constructor when it raises, the
    completion otherwise. *)
Theorem genai_check_value_error_unreachable (ext : External) (w : World) :
  (CheckGoogleGenai.script ext w).1 ≠ Raised (ValueError "GEMINI_API_KEY not found") ∧
  ((environ w ∪ dotenv ext) !! "GEMINI_API_KEY" = None →
   (CheckGoogleGenai.script ext w).1 = Raised (KeyError "GEMINI_API_KEY") ∧
   events_since w (CheckGoogleGenai.script ext w).2 = [LoadDotenv]) ∧
  (∀ v, (environ w ∪ dotenv ext) !! "GEMINI_API_KEY" = Some v →
        CheckGoogleGenai.is_None (CheckGoogleGenai.PyStr v) = false ∧
        NewGenaiClient ∈ events_since w (CheckGoogleGenai.script ext w).2 ∧
        (∀ err, genai_client ext (environ w ∪ dotenv ext) = inl err →
                (CheckGoogleGenai.script ext w).1 = Raised (LibraryError err) ∧
                events_since w (CheckGoogleGenai.script ext w).2 =
                  [LoadDotenv; NewGenaiClient]) ∧
        (∀ u, genai_client ext (environ w ∪ dotenv ext) = inr u →
              GenerateContent "gemini-2.5-flash" "Explain how AI works in a few words"
                ∈ events_since w (CheckGoogleGenai.script ext w).2)).
Proof.
  rewrite genai_script_eq. cbn zeta.
  destruct ((environ w ∪ dotenv ext) !! "GEMINI_API_KEY") as [v|].
  - destruct (genai_client ext _) as [err|u].
    + unfold events_since. cbn [fst snd trace logs set_environ].
      rewrite drop_app_length. split_and!; [done|done|].
      intros v' _. split_and!; [done| | |done].
      * apply elem_of_cons; right. apply elem_of_cons; by left.
      * intros err' [= Heq]. by rewrite Heq.
    + assert (∀ tl, NewGenaiClient ∈ LoadDotenv :: NewGenaiClient :: tl) as H1.
      { intros tl. apply elem_of_cons; right. apply elem_of_cons; by left. }
      assert (∀ tl,
        GenerateContent "gemini-2.5-flash" "Explain how AI works in a few words"
          ∈ LoadDotenv :: NewGenaiClient ::
            GenerateContent "gemini-2.5-flash" "Explain how AI works in a few words"
            :: tl) as H2.
      { intros tl. do 2 (apply elem_of_cons; right). apply elem_of_cons; by left. }
      destruct (genai_answer ext _ _) as [err|text];
        unfold events_since; cbn [fst snd trace logs set_environ];
        rewrite drop_app_length; (split_and!; [done|done|]);
        intros v' _; (split_and!; [done|apply H1|done|intros ? _; apply H2]).
  - unfold events_since. cbn [fst snd trace logs set_environ].
    rewrite drop_app_length. split_and!; done.
Qed.

Lemma genai_check_value_error_unreachable_witness :
  (CheckGoogleGenai.script ext_ok (fresh ∅)).1 = Raised (KeyError "GEMINI_API_KEY") ∧
  events_since (fresh ∅) (CheckGoogleGenai.script ext_ok (fresh ∅)).2 = [LoadDotenv].
Proof.
  apply (proj1 (proj2 (genai_check_value_error_unreachable ext_ok (fresh ∅)))).
  by vm_compute.
Defined.

End ScriptClaims.

(** ** app.py: further properties *)

Module AppExtras.
Import App AppSteps AppRuns AppFacts AppSession AppObjects.

Lemma thread_name_inj : Inj (=) (=) thread_name.
Proof.
  intros a b H. unfold thread_name in H. cbn in H.
  injection H as H. by apply (inj pretty).
Qed.

Lemma display_events_bubbles l :
  display_events l = Render <$> omap chat_bubble l.
Proof.
  induction l as [|m l IH]; [done|].
  change (display_events (m :: l)) with
    (match m with
     | AIMessage c => [Render (ChatMessage "assistant" c)]
     | HumanMessage c => [Render (ChatMessage "user" c)]
     | _ => []
     end ++ display_events l).
  rewrite IH. by destruct m.
Qed.

(** X1. [initialize_llm] reads the key with a subscript: without the
    variable it raises [KeyError] and builds nothing; with a non-empty
    value it builds the client on it; with the empty value the call ends
    with the constructor's error when the constructor raises.  In a run of
    the script the check of [ensure_api_key] comes first, so the agent of
    a turn is built on a client whose key is non-empty and is the value
    the environment holds when the run ends. *)
Theorem api_key_of_the_client :
  (∀ ext w, environ w !! "GEMINI_API_KEY" = None →
        initialize_llm ext w = (Raised (KeyError "GEMINI_API_KEY"), w)) ∧
  (∀ ext w k, environ w !! "GEMINI_API_KEY" = Some k → k ≠ "" →
          initialize_llm ext w =
          (Returned (mkChatOpenAI "gemini-2.5-flash" k
                       "https://generativelanguage.googleapis.com/v1beta/openai/"),
           logs [NewChatOpenAI (the_llm k)] w)) ∧
  (∀ ext w err,
     environ w !! "GEMINI_API_KEY" = Some "" →
     openai_keyless ext (environ w) = inl err →
     initialize_llm ext w =
     (Raised (LibraryError err), logs [NewChatOpenAI (the_llm "")] w)) ∧
  (∀ ui ext w,
     Forall (λ a, api_key (llm a) ≠ "" ∧
                  environ (script_run ui ext w) !! "GEMINI_API_KEY" =
                    Some (api_key (llm a)))
       (agents_created (new_events ui ext w))) ∧
  (∀ ui ext w p,
     reaches_page ui ext w = true →
     user_message ui = Some p → truthy p = true →
     ∃ a, agents_created (new_events ui ext w) = [a] ∧
          api_key (llm a) ≠ "" ∧
          environ (script_run ui ext w) !! "GEMINI_API_KEY" =
            Some (api_key (llm a))).
Proof.
  assert (∀ ui ext w,
     Forall (λ a, api_key (llm a) ≠ "" ∧
                  environ (script_run ui ext w) !! "GEMINI_API_KEY" =
                    Some (api_key (llm a)))
       (agents_created (new_events ui ext w))) as Hall.
  { intros ui ext w.
    destruct (reaches_page ui ext w) eqn:Hreach; last first.
    { destruct (script_unreached ui ext w Hreach) as (evs & _ & _ & Htr & _ & Ha & _).
      unfold new_events. rewrite (events_since_app _ _ _ Htr), Ha. constructor. }
    destruct (user_message_cases ui) as [Hq|(p & Hmsg & Hp)].
    { destruct (script_quiet ui ext w Hreach Hq) as (_ & _ & _ & -> & _).
      constructor. }
    unfold reaches_page in Hreach.
    destruct (toolbox ext) as [|ts] eqn:Hts; [done|].
    destruct (script_turn ui ext w ts p Hts Hreach Hmsg Hp)
      as (k & l & t & tr & post & _ & _ & Hk & Henv & _ & _ & _ & -> & _).
    repeat apply Forall_cons_2; [|apply Forall_nil_2].
    cbn [the_invocation inv_agent llm the_llm api_key]. split; [|done].
    apply truthy_true. rewrite Henv in Hk. unfold key_available in Hreach.
    destruct ((environ w ∪ dotenv ext) !! "GEMINI_API_KEY") as [k'|] eqn:Hk';
      cbn [truthy_opt] in *.
    + destruct (truthy k') eqn:Ht'.
      * rewrite Hk' in Hk. by injection Hk as <-.
      * rewrite lookup_insert_eq in Hk. injection Hk as <-. exact Hreach.
    + rewrite lookup_insert_eq in Hk. injection Hk as <-. exact Hreach. }
  split_and!; [| | |exact Hall|].
  - intros ext w Hk. by rewrite initialize_llm_eq, Hk.
  - intros ext w k Hk Hne.
    by rewrite initialize_llm_eq, Hk, (proj2 (truthy_true k) Hne).
  - intros ext w err Hk Herr. rewrite initialize_llm_eq, Hk.
    change (truthy "") with false. cbn iota. by rewrite Herr.
  - intros ui ext w p Hreach Hmsg Hp.
    destruct (run_turn ui ext w p Hreach Hmsg Hp)
      as (ts & k & l & t & _ & _ & _ & _ & _ & _ & _ & Ha & _).
    pose proof (Hall ui ext w) as H. rewrite Ha in H.
    apply Forall_cons in H as [H _]. eexists. split; [exact Ha|exact H].
Qed.

Lemma api_key_of_the_client_witness :
  ∃ a, agents_created (new_events ui_prompt ext_ok (fresh env_with_key)) = [a] ∧
       api_key (llm a) ≠ "" ∧
       environ (script_run ui_prompt ext_ok (fresh env_with_key))
         !! "GEMINI_API_KEY" = Some (api_key (llm a)).
Proof.
  apply (proj2 (proj2 (proj2 (proj2 api_key_of_the_client))) ui_prompt ext_ok
           (fresh env_with_key) "Who works there?"); by vm_compute.
Defined.

(** X2. The history loop draws one chat bubble for every assistant and
    every user message of the session, in the order of the list, and none
    for the system prompt; it changes nothing but what is drawn.  On a
    session without a message list it raises [AttributeError]. *)
Theorem display_messages_draws_history :
  (∀ w l, messages (session_state w) = Some l →
     display_messages w = (Returned tt, logs (Render <$> omap chat_bubble l) w) ∧
     length (omap chat_bubble l) =
       length (filter (λ m, is_AIMessage m || is_HumanMessage m) l)) ∧
  (∀ w, messages (session_state w) = None →
     display_messages w = (Raised (AttributeError "messages"), w)) ∧
  (∀ l c, Render (ChatMessage "assistant" c) ∈ display_events l ↔ AIMessage c ∈ l) ∧
  (∀ l c, Render (ChatMessage "user" c) ∈ display_events l ↔ HumanMessage c ∈ l).
Proof.
  assert (∀ l x, Render x ∈ display_events l ↔
                 ∃ m, m ∈ l ∧ chat_bubble m = Some x) as Hin.
  { intros l x. rewrite display_events_bubbles, list_elem_of_fmap. split.
    - intros (y & [= <-] & Hy). by apply list_elem_of_omap in Hy.
    - intros Hm. exists x. split; [done|]. by apply list_elem_of_omap. }
  split_and!.
  - intros w l Hl. split.
    + by rewrite (display_messages_eq w l Hl), display_events_bubbles.
    + clear. induction l as [|m l IH]; [done|].
      rewrite filter_cons. destruct m; cbn; by rewrite ?IH.
  - intros w Hl. unfold display_messages, session_messages. py_simpl.
    by rewrite Hl.
  - intros l c. rewrite Hin. split.
    + intros (m & Hm & Hb). destruct m; cbn in Hb; by simplify_eq.
    + intros Hm. by exists (AIMessage c).
  - intros l c. rewrite Hin. split.
    + intros (m & Hm & Hb). destruct m; cbn in Hb; by simplify_eq.
    + intros Hm. by exists (HumanMessage c).
Qed.

Lemma display_messages_draws_history_witness :
  display_messages after_one_turn =
  (Returned tt,
   logs (Render <$> omap chat_bubble
           (default [] (messages (session_state after_one_turn))))
     after_one_turn) ∧
  length (omap chat_bubble (default [] (messages (session_state after_one_turn)))) =
  length (filter (λ m, is_AIMessage m || is_HumanMessage m)
            (default [] (messages (session_state after_one_turn)))).
Proof.
  apply (proj1 display_messages_draws_history after_one_turn).
  by vm_compute.
Defined.

(** X3. A [GEMINI_API_KEY] that is set to the empty string counts as
    missing: [ensure_api_key] draws the sidebar input, a key typed there
    replaces the empty value, and without one the function stops. *)
Theorem ensure_api_key_empty_value (ui : Widgets) (w : World) :
  environ w !! "GEMINI_API_KEY" = Some "" →
  Render (SidebarTextInput "API Key") ∈ events_since w (ensure_api_key ui w).2 ∧
  (sidebar_api_key ui ≠ "" →
   (ensure_api_key ui w).1 = Returned tt ∧
   environ (ensure_api_key ui w).2 !! "GEMINI_API_KEY" = Some (sidebar_api_key ui)) ∧
  (sidebar_api_key ui = "" →
   (ensure_api_key ui w).1 = Stopped ∧
   environ (ensure_api_key ui w).2 = environ w).
Proof.
  intros Hk. rewrite ensure_api_key_eq, Hk.
  change (truthy_opt (Some "")) with false. cbn iota.
  destruct (truthy (sidebar_api_key ui)) eqn:Hs.
  - apply truthy_true in Hs. split_and!.
    + unfold events_since. cbn [snd trace set_environ logs].
      rewrite drop_app_length. apply elem_of_cons; right. apply elem_of_cons; by left.
    + intros _. split; [done|]. cbn [snd environ set_environ logs].
      apply lookup_insert_eq.
    + done.
  - apply truthy_false in Hs. split_and!.
    + unfold events_since. cbn [snd trace logs].
      rewrite drop_app_length. apply elem_of_cons; right. apply elem_of_cons; by left.
    + done.
    + done.
Qed.

Lemma ensure_api_key_empty_value_witness :
  Render (SidebarTextInput "API Key")
    ∈ events_since (fresh {["GEMINI_API_KEY" := ""]})
        (ensure_api_key ui_key (fresh {["GEMINI_API_KEY" := ""]})).2 ∧
  (sidebar_api_key ui_key ≠ "" →
   (ensure_api_key ui_key (fresh {["GEMINI_API_KEY" := ""]})).1 = Returned tt ∧
   environ (ensure_api_key ui_key (fresh {["GEMINI_API_KEY" := ""]})).2
     !! "GEMINI_API_KEY" = Some (sidebar_api_key ui_key)) ∧
  (sidebar_api_key ui_key = "" →
   (ensure_api_key ui_key (fresh {["GEMINI_API_KEY" := ""]})).1 = Stopped ∧
   environ (ensure_api_key ui_key (fresh {["GEMINI_API_KEY" := ""]})).2 =
   environ (fresh {["GEMINI_API_KEY" := ""]})).
Proof.
  apply (ensure_api_key_empty_value ui_key (fresh {["GEMINI_API_KEY" := ""]})).
  by vm_compute.
Defined.

(** X4. [invoke_agent] with a list of callbacks and a non-empty key in
    the environment builds one client and one agent, makes one invocation
    with the messages it was given, under stream mode ["values"], and
    returns what the agent answers or raises what the agent raises.
    Without the variable it raises [KeyError] before anything is built;
    with an empty key that the constructor refuses it raises the
    constructor's error: no agent is built and none is invoked. *)
Theorem invoke_agent_calls (ext : External) (g : Globals) (msgs : list Message)
    (cbs : list Callback) (t : string) (w : World) :
  (environ w !! "GEMINI_API_KEY" = None →
   invoke_agent ext g msgs (CallbackList cbs) t w =
   (Raised (KeyError "GEMINI_API_KEY"), w)) ∧
  (∀ k, environ w !! "GEMINI_API_KEY" = Some k → k ≠ "" →
   let inv := mkInvocation (mkReactAgent (the_llm k) (tools g) (memory g))
                msgs "values" (mkConfig {["thread_id" := t]} (Some cbs)) in
   events_since w (invoke_agent ext g msgs (CallbackList cbs) t w).2 =
     [NewChatOpenAI (the_llm k); CreateReactAgent (inv_agent inv); Invoke inv] ∧
   (invoke_agent ext g msgs (CallbackList cbs) t w).1 =
     match agent_answer ext
             (trace w ++ [NewChatOpenAI (the_llm k);
                          CreateReactAgent (inv_agent inv)]) inv with
     | inl err => Raised (LibraryError err)
     | inr response => Returned response
     end) ∧
  (∀ err, environ w !! "GEMINI_API_KEY" = Some "" →
   openai_keyless ext (environ w) = inl err →
   invoke_agent ext g msgs (CallbackList cbs) t w =
   (Raised (LibraryError err), logs [NewChatOpenAI (the_llm "")] w)).
Proof.
  split_and!.
  - intros Hk. unfold invoke_agent, create_agent. py_unfold.
    by rewrite initialize_llm_eq, Hk.
  - intros k Hk Hne. cbn zeta.
    unfold invoke_agent. py_unfold.
    rewrite (create_agent_eq ext g w k Hk (proj2 (truthy_true k) Hne)).
    unfold agent_invoke. py_simpl.
    unfold events_since, log. cbn [trace]. rewrite <- ?app_assoc. cbn [app].
    destruct (agent_answer ext _ _) as [err|resp]; py_simpl;
      rewrite <- ?app_assoc; cbn [app]; by rewrite drop_app_length.
  - intros err Hk Herr. unfold invoke_agent, create_agent. py_unfold.
    rewrite initialize_llm_eq, Hk. change (truthy "") with false. cbn iota.
    by rewrite Herr.
Qed.

Lemma invoke_agent_calls_witness :
  invoke_agent ext_ok (mkGlobals [] 0) initial_messages
    (CallbackList [StreamlitCallbackHandler]) "thread-1"
    (fresh {["GEMINI_API_KEY" := ""]}) =
  (Raised (LibraryError "The api_key client option must be set either by passing api_key to the client or by setting the OPENAI_API_KEY environment variable"),
   logs [NewChatOpenAI (the_llm "")] (fresh {["GEMINI_API_KEY" := ""]})).
Proof.
  apply (proj2 (proj2 (invoke_agent_calls ext_ok (mkGlobals [] 0) initial_messages
                         [StreamlitCallbackHandler] "thread-1"
                         (fresh {["GEMINI_API_KEY" := ""]}))));
    by vm_compute.
Defined.

(** X5. The identifiers a session records for its resets are pairwise
    distinct, so no two resets share a key of the memory object, and there
    is one for every reset. *)
Theorem reset_identifiers_distinct (env : gmap string string)
    (rs : list (Widgets * External)) :
  NoDup (default [] (threads (session_state (runs rs (fresh env))))) ∧
  length (default [] (threads (session_state (runs rs (fresh env))))) =
    resets rs (fresh env).
Proof.
  pose proof (runs_threads_after rs (fresh env) 0) as H.
  assert (threads_after 0 (session_state (fresh env))) as H0 by (split; auto).
  specialize (H H0). apply threads_after_default in H. rewrite H.
  cbn [Nat.add]. split; [|apply reset_names_length].
  unfold reset_names. apply NoDup_fmap_2; [apply thread_name_inj|apply NoDup_seq].
Qed.

(** X6. Every run of the script that loads the toolset creates a
    [MemorySaver] of its own: the agents of two different runs of a
    session never share their memory object. *)
Theorem memory_is_per_run (ui ui' : Widgets) (ext ext' : External)
    (rs : list (Widgets * External)) (w : World) (a a' : ReactAgent) :
  a ∈ agents_created (new_events ui ext w) →
  a' ∈ agents_created
         (new_events ui' ext' (runs rs (script_run ui ext w))) →
  checkpointer a ≠ checkpointer a'.
Proof.
  intros Ha Ha'.
  destruct (run_agents ui ext w) as [H | (ts & k & Hts & _ & H)];
    rewrite H in Ha; [by apply elem_of_nil in Ha|].
  apply list_elem_of_singleton in Ha as ->.
  destruct (run_agents ui' ext' (runs rs (script_run ui ext w)))
    as [H' | (ts' & k' & _ & _ & H')];
    rewrite H' in Ha'; [by apply elem_of_nil in Ha'|].
  apply list_elem_of_singleton in Ha' as ->.
  cbn [checkpointer].
  pose proof (runs_next_object rs (script_run ui ext w)) as Hle.
  rewrite run_next_object, Hts in Hle. lia.
Qed.

Lemma memory_is_per_run_witness :
  checkpointer (mkReactAgent (the_llm "secret") ["search_companies"; "search_news"] 0)
  ≠ checkpointer (mkReactAgent (the_llm "secret") ["search_companies"; "search_news"] 2).
Proof.
  apply (memory_is_per_run ui_prompt ui_prompt ext_ok ext_ok
           [(ui_idle, ext_ok)] (fresh env_with_key)).
  - vm_compute. apply list_elem_of_singleton. reflexivity.
  - vm_compute. apply list_elem_of_singleton. reflexivity.
Defined.

(** X7. Where the key comes from.  A non-empty key in the process
    environment is never replaced by a run, whatever the [.env] file and
    the sidebar hold.  When the environment has no such variable, a
    non-empty key of the [.env] file is taken, and the sidebar input is
    not drawn.  The sidebar's key is used only when neither gives one. *)
Theorem key_precedence (ui : Widgets) (ext : External) (w : World) :
  (∀ k, environ w !! "GEMINI_API_KEY" = Some k → k ≠ "" →
        environ (script_run ui ext w) !! "GEMINI_API_KEY" = Some k) ∧
  (∀ k, environ w !! "GEMINI_API_KEY" = None →
        dotenv ext !! "GEMINI_API_KEY" = Some k → k ≠ "" →
        environ (script_run ui ext w) !! "GEMINI_API_KEY" = Some k ∧
        ensure_api_key ui (boot ext w) = (Returned tt, boot ext w)) ∧
  (reaches_page ui ext w = true →
   truthy_opt ((environ w ∪ dotenv ext) !! "GEMINI_API_KEY") = false →
   environ (script_run ui ext w) !! "GEMINI_API_KEY" = Some (sidebar_api_key ui) ∧
   sidebar_api_key ui ≠ "").
Proof.
  split_and!.
  - intros k Hk Hne. apply run_key_kept; [done|by apply truthy_true].
  - intros k Hk Hd Hne.
    assert ((environ w ∪ dotenv ext) !! "GEMINI_API_KEY" = Some k) as Hu.
    { rewrite lookup_union, Hk, Hd. done. }
    split.
    + rewrite run_environ, Hu. cbn [truthy_opt].
      rewrite (proj2 (truthy_true k) Hne), andb_false_r. exact Hu.
    + rewrite ensure_api_key_eq. cbn [environ boot]. rewrite Hu.
      cbn [truthy_opt]. by rewrite (proj2 (truthy_true k) Hne).
  - intros Hreach Hk. rewrite run_environ, Hreach, Hk. cbn [andb negb].
    split; [apply lookup_insert_eq|].
    apply truthy_true. unfold reaches_page, key_available in Hreach.
    destruct (toolbox ext); [done|]. by rewrite Hk in Hreach.
Qed.

Lemma key_precedence_witness :
  environ (script_run ui_key ext_ok (fresh env_with_key)) !! "GEMINI_API_KEY" =
  Some "secret".
Proof.
  apply (proj1 (key_precedence ui_key ext_ok (fresh env_with_key)) "secret").
  - by vm_compute.
  - discriminate.
Defined.

(** X8. How a run of the application can end.  The only exceptions that
    leave the script are those of the libraries and the [IndexError] of
    [response["messages"][-1]] on an empty answer: the [TypeError] of
    [invoke_agent], the [KeyError] of [initialize_llm] and a missing
    session key are never seen.  The run is stopped by [st.stop()] exactly
    when the toolset loads and no key is to be had. *)
Theorem script_outcomes (ui : Widgets) (ext : External) (w : World) :
  (∀ e, (script ui ext w).1 = Raised e →
        (∃ err, e = LibraryError err) ∨
        e = IndexError "list index out of range") ∧
  ((script ui ext w).1 = Stopped ↔
   (∃ ts, toolbox ext = inr ts) ∧ key_available ui ext w = false).
Proof.
  destruct (toolbox ext) as [err|ts] eqn:Hts.
  { rewrite script_eq, Hts. cbn [fst]. split.
    - intros e [= <-]. left. by exists err.
    - split; [done|]. by intros [[ts [=]] _]. }
  destruct (key_available ui ext w) eqn:Hkey; last first.
  { unfold key_available in Hkey. apply orb_false_elim in Hkey as [H1 H2].
    rewrite (script_stop_eq ui ext w ts Hts H1 H2). cbn [fst]. split; [done|].
    split; [|done]. intros _. split; [by exists ts|done]. }
  destruct (user_message_cases ui) as [Hq|(p & Hmsg & Hp)].
  { assert (reaches_page ui ext w = true) as Hreach
      by (unfold reaches_page; by rewrite Hts).
    destruct (script_quiet ui ext w Hreach Hq) as (-> & _). split; [done|].
    split; [done|]. by intros [_ [=]]. }
  destruct (script_turn ui ext w ts p Hts Hkey Hmsg Hp)
    as (k & l & t & tr & post & _ & _ & _ & _ & _ & _ & _ & _ & _ & ->).
  destruct (agent_answer ext tr _) as [err|resp].
  - split; [|split; [done|by intros [_ [=]]]].
    intros e [= <-]. left. by exists err.
  - destruct (last resp).
    + split; [done|]. split; [done|by intros [_ [=]]].
    + split; [|split; [done|by intros [_ [=]]]].
      intros e [= <-]. by right.
Qed.

Lemma script_outcomes_witness :
  (∃ err, LibraryError "Connection error." = LibraryError err) ∨
  LibraryError "Connection error." = IndexError "list index out of range".
Proof.
  apply (proj1 (script_outcomes ui_prompt ext_agent_down (fresh env_with_key))).
  by vm_compute.
Defined.

(** X9. Whatever the runs of a session, its message list is the system
    prompt and the greeting followed by user and assistant messages only:
    the system prompt stays first and is the one message the history loop
    does not draw. *)
Theorem session_is_chat_history (env : gmap string string)
    (rs : list (Widgets * External)) (l : list Message) :
  messages (session_state (runs rs (fresh env))) = Some l →
  ∃ rest,
    l = initial_messages ++ rest ∧
    Forall (λ m, is_AIMessage m || is_HumanMessage m = true) rest ∧
    length (display_events l) = S (length rest).
Proof.
  intros Hl.
  destruct (runs_chat_history rs (fresh env) (λ l0 (H : None = Some l0),
              match H with end) l Hl) as (rest & -> & Hrest).
  exists rest. split_and!; [done|done|].
  rewrite display_events_bubbles, length_fmap, omap_app, length_app.
  cbn [initial_messages omap list_omap chat_bubble length Nat.add]. f_equal.
  clear Hl. induction Hrest as [|m rest Hm _ IH]; [done|].
  destruct m; try done; cbn; by rewrite IH.
Qed.

Lemma session_is_chat_history_witness :
  ∃ rest,
    default [] (messages (session_state after_one_turn)) = initial_messages ++ rest ∧
    Forall (λ m, is_AIMessage m || is_HumanMessage m = true) rest ∧
    length (display_events (default [] (messages (session_state after_one_turn)))) =
      S (length rest).
Proof.
  apply (session_is_chat_history env_with_key [(ui_prompt, ext_ok)]).
  by vm_compute.
Defined.

(** X10. The application builds a new client and a new agent for every
    question: through a whole session the agents that are built are the
    agents that are invoked, one invocation each, in the same order. *)
Theorem one_agent_per_invocation (rs : list (Widgets * External)) (w : World) :
  inv_agent <$> invocations (events_since w (runs rs w)) =
  agents_created (events_since w (runs rs w)).
Proof.
  revert w. induction rs as [|r rs IH]; intros w.
  - unfold events_since. cbn [runs foldl]. by rewrite drop_all.
  - rewrite events_since_runs, invocations_app, agents_created_app, fmap_app.
    by rewrite run_agent_invoked, IH.
Qed.

End AppExtras.

(** ** The console scripts: further properties *)

Module ScriptExtras.
Import ScriptSteps.


Import CheckToolboxQueryAgent.




(** X12. Importing [check_toolbox_query_agent.py] runs the key check and
    nothing else: the [.env] file is loaded, [main] is not called, no
    object is built and nothing is printed.  The import goes through
    exactly when the environment holds a non-empty key, or holds no such
    variable and the [.env] file gives a non-empty one: a variable that is
    set to the empty string makes the import fail whatever the file
    holds. *)
Theorem import_runs_nothing (ext : External) (w : World) :
  events_since w (script ext false w).2 = [LoadDotenv] ∧
  session_state (script ext false w).2 = session_state w ∧
  next_object (script ext false w).2 = next_object w ∧
  ((script ext false w).1 = Returned tt ↔
   (∃ k, environ w !! "GEMINI_API_KEY" = Some k ∧ k ≠ "") ∨
   (environ w !! "GEMINI_API_KEY" = None ∧
    ∃ k, dotenv ext !! "GEMINI_API_KEY" = Some k ∧ k ≠ "")) ∧
  (environ w !! "GEMINI_API_KEY" = Some "" →
   (script ext false w).1 = Raised (ValueError "GEMINI_API_KEY not found")).
Proof.
  rewrite toolbox_script_eq. cbn zeta.
  assert (events_since w
            (logs [LoadDotenv] (set_environ (λ env, env ∪ dotenv ext) w)) =
          [LoadDotenv]) as Hev.
  { unfold events_since. cbn [trace logs set_environ]. apply drop_app_length. }
  destruct (environ w !! "GEMINI_API_KEY") as [k|] eqn:Hk.
  - rewrite (lookup_union_Some_l _ _ _ _ Hk).
    destruct (truthy k) eqn:Ht.
    + apply AppSession.truthy_true in Ht.
      split_and!; [done|done|done| |by intros [= ->]].
      split; [intros _; left; by exists k|done].
    + apply AppSession.truthy_false in Ht as ->.
      split_and!; [done|done|done| |done].
      split; [done|]. by intros [(k & [= <-] & Hne)|[[=] _]].
  - rewrite (lookup_union_r _ _ _ Hk).
    destruct (dotenv ext !! "GEMINI_API_KEY") as [k|] eqn:Hd.
    + destruct (truthy k) eqn:Ht.
      * apply AppSession.truthy_true in Ht.
        split_and!; [done|done|done| |done].
        split; [intros _; right; split; [done|by exists k]|done].
      * apply AppSession.truthy_false in Ht as ->.
        split_and!; [done|done|done| |done].
        split; [done|]. by intros [(k & [=] & _)|[_ (k & [= <-] & Hne)]].
    + split_and!; [done|done|done| |done].
      split; [done|]. by intros [(k & [=] & _)|[_ (k & [=] & _)]].
Qed.

Lemma import_runs_nothing_witness :
  (script ext_key_in_file false (fresh {["GEMINI_API_KEY" := ""]})).1 =
  Raised (ValueError "GEMINI_API_KEY not found").
Proof.
  apply (proj2 (proj2 (proj2 (proj2
           (import_runs_nothing ext_key_in_file
              (fresh {["GEMINI_API_KEY" := ""]})))))).
  by vm_compute.
Defined.

(** X13. The three files treat an empty [GEMINI_API_KEY] differently.
    [check_toolbox_query_agent.py] refuses it with [ValueError], run or
    imported.  [check_google_genai.py] lets it through its own test, which
    is [is None]: the script gets to [genai.Client()], and it is the
    constructor that ends the run when it raises, before the completion
    is asked for.  [app.py] takes it for a missing key and stops the run
    when none is typed in the sidebar. *)
Theorem empty_key_in_each_script (ext : External) (w : World) :
  (environ w ∪ dotenv ext) !! "GEMINI_API_KEY" = Some "" →
  (∀ as_main, (script ext as_main w).1 =
              Raised (ValueError "GEMINI_API_KEY not found")) ∧
  (CheckGoogleGenai.script ext w).1 ≠
    Raised (ValueError "GEMINI_API_KEY not found") ∧
  (CheckGoogleGenai.script ext w).1 ≠ Raised (KeyError "GEMINI_API_KEY") ∧
  NewGenaiClient ∈ events_since w (CheckGoogleGenai.script ext w).2 ∧
  (∀ err, genai_client ext (environ w ∪ dotenv ext) = inl err →
     (CheckGoogleGenai.script ext w).1 = Raised (LibraryError err) ∧
     events_since w (CheckGoogleGenai.script ext w).2 =
       [LoadDotenv; NewGenaiClient]) ∧
  (∀ ui ts, toolbox ext = inr ts → App.sidebar_api_key ui = "" →
            (App.script ui ext w).1 = Stopped).
Proof.
  intros Hk.
  assert (∀ tl, NewGenaiClient ∈ LoadDotenv :: NewGenaiClient :: tl) as H1.
  { intros tl. apply elem_of_cons; right. apply elem_of_cons; by left. }
  split_and!.
  - intros as_main. by rewrite toolbox_script_eq, Hk.
  - rewrite genai_script_eq, Hk. cbn zeta.
    destruct (genai_client ext _); [done|]. by destruct (genai_answer ext _ _).
  - rewrite genai_script_eq, Hk. cbn zeta.
    destruct (genai_client ext _); [done|]. by destruct (genai_answer ext _ _).
  - rewrite genai_script_eq, Hk. cbn zeta.
    destruct (genai_client ext _); [|destruct (genai_answer ext _ _)];
      unfold events_since; cbn [snd trace logs set_environ];
      rewrite drop_app_length; apply H1.
  - intros err Herr. rewrite genai_script_eq, Hk, Herr.
    unfold events_since. cbn [fst snd trace logs set_environ].
    by rewrite drop_app_length.
  - intros ui ts Hts Hs.
    rewrite (AppSession.script_stop_eq ui ext w ts Hts); [done|by rewrite Hk|].
    by rewrite Hs.
Qed.

Lemma empty_key_in_each_script_witness :
  (CheckGoogleGenai.script ext_ok (fresh {["GEMINI_API_KEY" := ""]})).1 =
    Raised (LibraryError "Missing key inputs argument!") ∧
  events_since (fresh {["GEMINI_API_KEY" := ""]})
    (CheckGoogleGenai.script ext_ok (fresh {["GEMINI_API_KEY" := ""]})).2 =
    [LoadDotenv; NewGenaiClient].
Proof.
  assert ((environ (fresh {["GEMINI_API_KEY" := ""]}) ∪ dotenv ext_ok)
            !! "GEMINI_API_KEY" = Some "") as Hk by (by vm_compute).
  apply (proj1 (proj2 (proj2 (proj2 (proj2
           (empty_key_in_each_script ext_ok (fresh {["GEMINI_API_KEY" := ""]}) Hk)))))).
  by vm_compute.
Defined.

End ScriptExtras.
